(** * localhome: routing, proxying and certificate issuance

    A shallow embedding of the daemon's request path ([src/index.ts]) and of
    its leaf-certificate cache ([src/certs.ts]), with the properties the
    design document states about them.

    Conventions.
    - JavaScript strings are [string]s; the Host header, header names and
      the URL parts handled here are ASCII.
    - [number]s that hold ports and process ids are [N]; clock readings
      ([Date.now()]) are [Z] milliseconds.
    - [Map<string, number>] is [gmap string N]; the [WeakMap] and the
      certificate cache are [gmap]s as well.
    - What the runtime or another module decides (the clock, [./scan], the
      network behind [fetch], [server.upgrade], the key generator of
      node-forge) is passed in as an argument or a section variable.
    - [console.log] calls are left out. *)

From Stdlib Require Import ZArith NArith String Ascii List Bool Lia.
From Stdlib Require Import DecimalString HexadecimalString.
From stdpp Require Import gmap strings list fin_maps.

Open Scope string_scope.

(** ** JavaScript string and number primitives used by the sources *)
Module Js.

(** The character [U+0022], kept out of string literals. *)
Definition dq : string := String "034"%char EmptyString.

(** [s.split(":")[0]]: the part of [s] before its first colon. *)
Fixpoint before_colon (s : string) : string :=
  match s with
  | EmptyString => EmptyString
  | String c r =>
      if Ascii.eqb c ":"%char then EmptyString else String c (before_colon r)
  end.

(** [s.endsWith(suf)]. *)
Fixpoint endsWith (s suf : string) : bool :=
  String.eqb s suf
  || match s with
     | EmptyString => false
     | String _ r => endsWith r suf
     end.

(** [s.slice(0, -n)] for [n > 0]: [s] without its last [n] characters
    (empty when [s] is shorter). *)
Definition slice_to_minus (s : string) (n : nat) : string :=
  substring 0 (String.length s - n) s.

(** [s.slice(0, n)]. *)
Definition slice_to (s : string) (n : nat) : string :=
  substring 0 n s.

Definition lower_ascii (c : ascii) : ascii :=
  let n := nat_of_ascii c in
  if (65 <=? n)%nat && (n <=? 90)%nat then ascii_of_nat (n + 32) else c.

(** [s.toLowerCase()] on ASCII text. *)
Fixpoint toLowerCase (s : string) : string :=
  match s with
  | EmptyString => EmptyString
  | String c r => String (lower_ascii c) (toLowerCase r)
  end.

(** [String(n)] and [`${n}`] for a non-negative integer. *)
Definition String_of_N (n : N) : string :=
  DecimalString.NilZero.string_of_uint (N.to_uint n).

(** [n.toString(16)] for an integer. *)
Definition toString16 (z : Z) : string :=
  let digits := HexadecimalString.NilZero.string_of_uint
                  (N.to_hex_uint (Z.to_N (Z.abs z))) in
  if (z <? 0)%Z then "-" ++ digits else digits.

(** Truthiness of a [string | null] value. *)
Definition truthy_string (o : option string) : bool :=
  match o with
  | None => false
  | Some s => negb (String.eqb s EmptyString)
  end.

(** [s] occurs somewhere inside [t]. *)
Definition occurs_in (s t : string) : Prop :=
  exists pre post, t = pre ++ s ++ post.

(** [s] has no colon in it. *)
Fixpoint colon_free (s : string) : bool :=
  match s with
  | EmptyString => true
  | String c r => negb (Ascii.eqb c ":"%char) && colon_free r
  end.

(** A Host header value: a host name, alone or followed by [":"] and a
    port. *)
Definition host_header (hostname : string) (port : option string)
  : string :=
  match port with
  | None => hostname
  | Some p => hostname ++ ":" ++ p
  end.

End Js.

(** ** The Fetch API values the daemon handles *)
Module Http.

(** A [Headers] object: name/value pairs in order; names compare without
    regard to ASCII case. *)
Definition Headers := list (string * string).

Definition same_name (a b : string) : bool :=
  String.eqb (Js.toLowerCase a) (Js.toLowerCase b).

Fixpoint join_values (vs : list string) : string :=
  match vs with
  | [] => EmptyString
  | [v] => v
  | v :: rest => v ++ ", " ++ join_values rest
  end.

(** [headers.get(name)]: [null] when absent, else the values joined. *)
Definition get (hs : Headers) (name : string) : option string :=
  match List.filter (fun h => same_name (fst h) name) hs with
  | [] => None
  | found => Some (join_values (List.map snd found))
  end.

(** [headers.delete(name)]. *)
Definition delete (hs : Headers) (name : string) : Headers :=
  List.filter (fun h => negb (same_name (fst h) name)) hs.

(** A parsed URL: [port] is [None] when the URL carries no explicit port
    (the scheme's default then applies). *)
Record URL := mkURL {
  protocol : string;
  hostname : string;
  port : option N;
  pathname : string;
  search : string
}.

Definition default_port (proto : string) : option N :=
  if String.eqb proto "http:" then Some 80%N
  else if String.eqb proto "https:" then Some 443%N
  else if String.eqb proto "ws:" then Some 80%N
  else if String.eqb proto "wss:" then Some 443%N
  else if String.eqb proto "ftp:" then Some 21%N
  else None.

(** The port a connection to the URL is made on. *)
Definition effective_port (u : URL) : option N :=
  match port u with
  | Some p => Some p
  | None => default_port (protocol u)
  end.

(** [url.hostname = h]. *)
Definition set_hostname (u : URL) (h : string) : URL :=
  mkURL (protocol u) h (port u) (pathname u) (search u).

(** [url.port = String(p)]: the setter ignores values above 65535 and
    stores the scheme's default port as "no explicit port". *)
Definition set_port (u : URL) (p : N) : URL :=
  if (65535 <? p)%N then u
  else
    let stored := if decide (default_port (protocol u) = Some p)
                  then None else Some p in
    mkURL (protocol u) (hostname u) stored (pathname u) (search u).

Record Request := mkRequest {
  url : URL;
  method : string;
  headers : Headers;
  body : option string
}.

Record Response := mkResponse {
  status : N;
  resp_headers : Headers;
  resp_body : string
}.

(** [new Response(text, { status })]: a string body is sent as plain
    text. *)
Definition text_response (text : string) (st : N) : Response :=
  mkResponse st [("content-type", "text/plain;charset=UTF-8")] text.

Inductive RedirectMode := Follow | Manual | ErrorOnRedirect.

(** The request handed to the runtime's [fetch]: URL, method, headers,
    body and the [redirect] option. *)
Record Outbound := mkOutbound {
  o_url : URL;
  o_method : string;
  o_headers : Headers;
  o_body : option string;
  o_redirect : RedirectMode
}.

(** What one HTTP exchange with a backend yields: a response, or a
    transport failure (refused, reset, timed out) with its message, which
    [fetch] throws. *)
Inductive Exchange :=
| Answered (r : Response)
| Failed (e : string).

Section RuntimeFetch.
(** The network: the outcome of sending one request. *)
Variable exchange : Outbound -> Exchange.
(** The request that follows a redirect response, if the response is a
    redirect with a usable [Location]. *)
Variable next_hop : Outbound -> Response -> option Outbound.

(** The runtime's [fetch(request)]: resolves with a response or rejects
    with an error.  With [redirect: "manual"] the first response is
    returned as it is. *)
Fixpoint runtime_fetch (hops : nat) (o : Outbound) : Exchange :=
  match exchange o with
  | Failed e => Failed e
  | Answered r =>
      match o_redirect o with
      | Manual => Answered r
      | ErrorOnRedirect =>
          match next_hop o r with
          | Some _ => Failed "TypeError: unexpected redirect"
          | None => Answered r
          end
      | Follow =>
          match next_hop o r with
          | None => Answered r
          | Some o' =>
              match hops with
              | O => Failed "TypeError: redirect count exceeded"
              | S k => runtime_fetch k o'
              end
          end
      end
  end.

(** [fetch] follows at most 20 redirects. *)
Definition js_fetch (o : Outbound) : Exchange := runtime_fetch 20 o.
End RuntimeFetch.

End Http.

(** ** The daemon: [src/index.ts] *)
Module Router.
Import Http.

Definition CACHE_TTL_MS : Z := 5000.

(** The module-level variables [mappingCache] and [lastScan]. *)
Record State := mkState {
  mappingCache : gmap string N;
  lastScan : Z
}.

(** The state the module starts in. *)
Definition initial : State := mkState ∅ 0.

(** Calls that leave the handler, in the order they are made. *)
Inductive Effect :=
| CallScanServers
| CallGetMapping
| CallBuildMapping
| MappingGet (name : string)
| CallUpgrade (backendUrl subdomain : string)
| CallFetch (o : Outbound).

(** The handler consulted the service mapping. *)
Definition looks_up_mapping (effects : list Effect) : bool :=
  existsb
    (fun e =>
       match e with
       | CallGetMapping | CallBuildMapping | MappingGet _ => true
       | _ => false
       end)
    effects.

(** The handler passed the request on, to a backend or to the WebSocket
    bridge. *)
Definition forwards (effects : list Effect) : bool :=
  existsb
    (fun e =>
       match e with
       | CallFetch _ | CallUpgrade _ _ => true
       | _ => false
       end)
    effects.

(** [getMapping] up to its [await]: either the cache is fresh and is
    returned, or [buildMapping()] has been called and the function is
    suspended, holding the clock reading it took. *)
Inductive Pending :=
| Fresh (m : gmap string N)
| AwaitingScan (now : Z).

Definition getMapping_begin (st : State) (now : Z) : Pending :=
  if (now - lastScan st >? CACHE_TTL_MS)%Z then AwaitingScan now
  else Fresh (mappingCache st).

(** [getMapping] after its [await]: the scan result replaces the cache
    and the reading taken before the scan becomes [lastScan]. *)
Definition getMapping_resume (now : Z) (scanned : gmap string N)
  : gmap string N * State :=
  (scanned, mkState scanned now).

(** [getMapping()] run without interruption: [now] is [Date.now()] and
    [scanned] what [buildMapping()] resolves to if it is called. *)
Definition getMapping (st : State) (now : Z) (scanned : gmap string N)
  : gmap string N * State * list Effect :=
  match getMapping_begin st now with
  | Fresh m => (m, st, [])
  | AwaitingScan t =>
      let '(m, st') := getMapping_resume t scanned in
      (m, st', [CallBuildMapping])
  end.

(** [extractSubdomain(host)]. *)
Definition extractSubdomain (host : option string) : option string :=
  if negb (Js.truthy_string host) then None
  else
    match host with
    | None => None
    | Some h =>
        let hostname := Js.before_colon h in
        if String.eqb hostname "localhost" then None
        else if negb (Js.endsWith hostname ".localhost") then None
        else
          let subdomain :=
            Js.slice_to_minus hostname (String.length ".localhost") in
          if Js.truthy_string (Some subdomain) then Some subdomain else None
    end.

(** A header is one of the two conditional-request headers. *)
Definition conditional (h : string * string) : bool :=
  same_name (fst h) "If-None-Match"
  || same_name (fst h) "If-Modified-Since".

(** The request [proxyRequest] builds for [fetch]. *)
Definition proxy_outbound (req : Request) (targetPort : N) : Outbound :=
  let u := set_port (set_hostname (url req) "localhost") targetPort in
  let hs := delete (delete (headers req) "If-None-Match")
              "If-Modified-Since" in
  mkOutbound u (method req) hs (body req) Manual.

Section Proxy.
Variable exchange : Outbound -> Exchange.
Variable next_hop : Outbound -> Response -> option Outbound.

(** [proxyRequest(req, targetPort)]. *)
Definition proxyRequest (req : Request) (targetPort : N) : Response :=
  match js_fetch exchange next_hop (proxy_outbound req targetPort) with
  | Answered r => r
  | Failed e =>
      text_response
        ("Failed to proxy to port " ++ Js.String_of_N targetPort
           ++ ": " ++ e)
        502
  end.
End Proxy.

(** An entry of [scanServers()]. *)
Record Server := mkServer {
  name : string;
  server_port : N;
  pid : N;
  command : string
}.

Section Serve.
(** The listening port, [parseInt(process.env.PORT || "9999", 10)]. *)
Variable PORT : N.

Definition page_head : string :=
"<!DOCTYPE html>
<html>
<head>
  <title>localhostess</title>
  <style>
    body { font-family: system-ui, sans-serif; max-width: 800px; margin: 40px auto; padding: 0 20px; }
    h1 { color: #333; }
    .server { background: #f5f5f5; border-radius: 8px; padding: 16px; margin: 12px 0; }
    .server a { color: #0066cc; font-size: 1.2em; font-weight: bold; }
    .meta { color: #666; font-size: 0.9em; margin-top: 8px; }
    .empty { color: #999; font-style: italic; }
    code { background: #e8e8e8; padding: 2px 6px; border-radius: 4px; }
  </style>
</head>
<body>
  <h1>localhostess</h1>
  <p>Routing <code>*.localhost:" ++ Js.String_of_N PORT ++ "</code> to local services</p>
".

Definition page_empty : string :=
"
  <p class=" ++ Js.dq ++ "empty" ++ Js.dq ++ ">No servers found with NAME env var.</p>
  <p>Start a server with:</p>
  <pre><code>NAME=myapp bun run server.ts</code></pre>
".

Definition page_server (s : Server) : string :=
"
  <div class=" ++ Js.dq ++ "server" ++ Js.dq ++ ">
    <a href=" ++ Js.dq ++ "http://" ++ name s ++ ".localhost:" ++ Js.String_of_N PORT ++ Js.dq ++ ">" ++ name s ++ ".localhost:" ++ Js.String_of_N PORT ++ "</a>
    <span>→ :" ++ Js.String_of_N (server_port s) ++ "</span>
    <div class=" ++ Js.dq ++ "meta" ++ Js.dq ++ ">PID " ++ Js.String_of_N (pid s) ++ " · " ++ Js.slice_to (command s) 60 ++ "...</div>
  </div>
".

Definition page_foot : string :=
"
</body>
</html>".

Definition dashboard_html (servers : list Server) : string :=
  let html := page_head in
  let html :=
    match servers with
    | [] => html ++ page_empty
    | _ =>
        fold_left (fun acc s => acc ++ page_server s) servers
          (html ++ "<h2>Active Services</h2>")
    end in
  html ++ page_foot.

(** [renderDashboard()], given what [scanServers()] resolved to. *)
Definition renderDashboard (servers : list Server) : Response :=
  mkResponse 200 [("Content-Type", "text/html; charset=utf-8")]
    (dashboard_html servers).

(** [isWebSocketUpgrade(req)]. *)
Definition isWebSocketUpgrade (req : Request) : bool :=
  match get (headers req) "upgrade" with
  | None => false
  | Some v => String.eqb (Js.toLowerCase v) "websocket"
  end.

(** The data attached to an upgraded socket. *)
Record WsData := mkWsData {
  backendUrl : string;
  ws_subdomain : string
}.

(** What the [fetch] handler hands back to the server. *)
Inductive Handled :=
| Respond (r : Response)
| Upgraded (d : WsData).

(** What the environment answers while one request is handled. *)
Record Env := mkEnv {
  now : Z;                               (* Date.now() *)
  scanned : gmap string N;               (* buildMapping() *)
  servers : list Server;                 (* scanServers() *)
  upgrade_ok : bool;                     (* server.upgrade(req, ...) *)
  exchange : Outbound -> Exchange;       (* the network behind fetch *)
  next_hop : Outbound -> Response -> option Outbound
}.

Definition not_found (sub : string) : Response :=
  text_response
    ("No server found for " ++ Js.dq ++ sub ++ ".localhost" ++ Js.dq ++ "
")
    404.

(** A looked-up port as the test [!targetPort] sees it: [undefined]
    and [0] are both falsy. *)
Definition truthy_port (o : option N) : option N :=
  match o with
  | Some p => if (p =? 0)%N then None else Some p
  | None => None
  end.

(** The [fetch(req, server)] handler of [Bun.serve]. *)
Definition fetch (st : State) (env : Env) (req : Request)
  : Handled * State * list Effect :=
  let host := get (headers req) "host" in
  let subdomain := extractSubdomain host in
  match subdomain with
  | None =>
      (Respond (renderDashboard (servers env)), st, [CallScanServers])
  | Some sub =>
      if negb (Js.truthy_string (Some sub)) || String.eqb sub "_" then
        (Respond (renderDashboard (servers env)), st, [CallScanServers])
      else
        let '(mapping, st', refresh) :=
          getMapping st (now env) (scanned env) in
        let looked_up :=
          (CallGetMapping :: refresh ++ [MappingGet sub])%list in
        match truthy_port (mapping !! sub) with
        | None => (Respond (not_found sub), st', looked_up)
        | Some targetPort =>
            if isWebSocketUpgrade req then
              let backend :=
                "ws://localhost:" ++ Js.String_of_N targetPort
                  ++ pathname (url req) ++ search (url req) in
              let called :=
                (looked_up ++ [CallUpgrade backend sub])%list in
              if upgrade_ok env then
                (Upgraded (mkWsData backend sub), st', called)
              else
                (Respond (text_response "WebSocket upgrade failed" 400),
                 st', called)
            else
              (Respond (proxyRequest (exchange env) (next_hop env)
                          req targetPort),
               st',
               (looked_up
                  ++ [CallFetch (proxy_outbound req targetPort)])%list)
        end
  end.
End Serve.

End Router.

(** ** Requests in flight together

    The handler is an [async] function: it runs without interruption up to
    an [await] and the event loop may run other handlers before it
    resumes.  [getMapping] has one [await], on [buildMapping()], so a call
    is two atomic segments, [Router.getMapping_begin] and
    [Router.getMapping_resume]; the event loop interleaves the segments of
    the calls in flight. *)
Module EventLoop.
Import Router.

(** Modelled from the spec: [buildMapping] of [./scan], which is not among
    these sources, "may be slow" (it "shells out to OS process/socket
    inspection") and is an "in-flight call": the promise it returns
    resolves in a later turn of the event loop, so other handlers run while
    a call of [getMapping] is suspended on it.

    One call of [getMapping]: not yet run, suspended on the scan it issued
    (with the clock reading it took and the scan's number), or returned. *)
Inductive Task :=
| NotStarted
| Suspended (now : Z) (ticket : nat)
| Returned (m : gmap string N).

(** The module state, the number of [buildMapping()] calls issued so far
    and the calls in flight. *)
Record Sys := mkSys {
  state : State;
  refreshes : nat;
  tasks : list Task
}.

Section Run.
(** What the [k]-th call of [buildMapping()] resolves to. *)
Variable scan_result : nat -> gmap string N.

(** The event loop runs the next segment of task [i]; [now] is the
    clock reading if that segment takes one. *)
Definition step (s : Sys) (i : nat) (now : Z) : Sys :=
  match tasks s !! i with
  | Some NotStarted =>
      match getMapping_begin (state s) now with
      | Fresh m =>
          mkSys (state s) (refreshes s) (<[i := Returned m]> (tasks s))
      | AwaitingScan t =>
          mkSys (state s) (S (refreshes s))
            (<[i := Suspended t (refreshes s)]> (tasks s))
      end
  | Some (Suspended t k) =>
      let '(m, st') := getMapping_resume t (scan_result k) in
      mkSys st' (refreshes s) (<[i := Returned m]> (tasks s))
  | Some (Returned _) | None => s
  end.

Fixpoint run (s : Sys) (schedule : list (nat * Z)) : Sys :=
  match schedule with
  | [] => s
  | (i, now) :: rest => run (step s i now) rest
  end.
End Run.

(** [n] requests arrive together. *)
Definition arrivals (st : State) (n : nat) : Sys :=
  mkSys st 0 (replicate n NotStarted).

(** Every request in turn runs up to its [await], reading the clock as
    [nows] lists; no scan has completed yet. *)
Fixpoint begin_from (i : nat) (nows : list Z) : list (nat * Z) :=
  match nows with
  | [] => []
  | now :: rest => (i, now) :: begin_from (S i) rest
  end.

Definition all_begin (nows : list Z) : list (nat * Z) := begin_from 0 nows.

(** The scans then complete in order. *)
Definition all_resume (n : nat) : list (nat * Z) :=
  List.map (fun i => (i, 0%Z)) (seq 0 n).

Definition concurrent_schedule (nows : list Z) : list (nat * Z) :=
  (all_begin nows ++ all_resume (List.length nows))%list.

(** Each request is handled to the end (staleness test, then the scan's
    completion if one was issued) before the next one starts. *)
Fixpoint one_by_one (i : nat) (nows : list Z) : list (nat * Z) :=
  match nows with
  | [] => []
  | now :: rest => (i, now) :: (i, now) :: one_by_one (S i) rest
  end.

(** The calls suspended on scans number [k], [k+1], ... *)
Fixpoint suspended_from (k : nat) (nows : list Z) : list Task :=
  match nows with
  | [] => []
  | now :: rest => Suspended now k :: suspended_from (S k) rest
  end.

Definition started (t : Task) : bool :=
  match t with
  | NotStarted => false
  | _ => true
  end.

End EventLoop.

(** ** The WebSocket bridge: the [websocket] handlers of [src/index.ts] *)
Module Bridge.

(** Sockets are objects; an object's identity is a number here. *)
Definition ClientWs := nat.
Definition BackendWs := nat.

Inductive Payload :=
| Text (s : string)
| Binary (bytes : list Byte.byte).

Inductive ReadyState := CONNECTING | OPEN | CLOSING | CLOSED.

(** [wsBackends] (the [WeakMap]), the clients the listeners of each
    backend socket close over, the backend sockets' [readyState] and the
    next fresh object identity. *)
Record State := mkState {
  wsBackends : gmap nat nat;
  listeners : gmap nat nat;
  readyState : gmap nat ReadyState;
  next_backend : nat
}.

Definition initial : State := mkState ∅ ∅ ∅ 0.

(** The [data] of a message event of the backend socket: a string, an
    [ArrayBuffer], a [Blob], or a value of another kind (a [Buffer], a
    typed array). *)
Inductive BackendData :=
| DataString (s : string)
| DataArrayBuffer (bytes : list Byte.byte)
| DataBlob (bytes : list Byte.byte)
| DataOther.

(** What the handlers are called for.  [ClientError] is a transport
    error on the client socket. *)
Inductive Event :=
| ClientOpen (c : ClientWs) (backendUrl subdomain : string)
| ClientMessage (c : ClientWs) (message : Payload)
| ClientClose (c : ClientWs) (code : N) (reason : string)
| ClientError (c : ClientWs)
| BackendOpen (b : BackendWs)
| BackendMessage (b : BackendWs) (data : BackendData)
| BackendClose (b : BackendWs) (code : N) (reason : string)
| BackendError (b : BackendWs).

(** The calls the handlers make on the two sockets that take effect.
    [SendToClientLater] is the send made once a blob has been read, in a
    later turn of the event loop. *)
Inductive Action :=
| NewWebSocket (b : BackendWs) (url : string)
| SendToClient (c : ClientWs) (data : Payload)
| SendToClientLater (c : ClientWs) (data : Payload)
| SendToBackend (b : BackendWs) (data : Payload)
| CloseClient (c : ClientWs) (code : N) (reason : string)
| CloseBackend (b : BackendWs) (code : N) (reason : string).

(** The arguments [WebSocket.close(code, reason)] accepts by the WebSocket
    standard: the code 1000 or one from 3000 to 4999, and a reason of at
    most 123 bytes.  With other arguments it throws. *)
Definition standard_close_accepts (code : N) (reason : string) : bool :=
  ((code =? 1000)%N || ((3000 <=? code)%N && (code <=? 4999)%N))
  && (String.length reason <=? 123)%nat.

Definition is_open (r : option ReadyState) : bool :=
  match r with
  | Some OPEN => true
  | _ => false
  end.

Section Runtime.
(** Whether the runtime's [WebSocket.close] accepts a code and reason for
    the backend socket; it throws when it does not. *)
Variable close_accepts : N -> string -> bool.

(** The handler registered for each event, if any: [websocket.open],
    [websocket.message], [websocket.close] and the four listeners added
    to the backend socket.  The [websocket] object has no entry for
    errors of the client socket.  In [websocket.close] nothing catches
    what [backendWs.close(code, reason)] throws: the handler then ends
    before [wsBackends.delete]. *)
Definition handle (st : State) (e : Event) : State * list Action :=
  match e with
  | ClientOpen c backendUrl _ =>
      let b := next_backend st in
      (mkState (<[c := b]> (wsBackends st)) (<[b := c]> (listeners st))
         (<[b := CONNECTING]> (readyState st)) (S b),
       [NewWebSocket b backendUrl])
  | ClientMessage c message =>
      match wsBackends st !! c with
      | Some b =>
          if is_open (readyState st !! b)
          then (st, [SendToBackend b message])
          else (st, [])
      | None => (st, [])
      end
  | ClientClose c code reason =>
      match wsBackends st !! c with
      | Some b =>
          if close_accepts code reason then
            (mkState (delete c (wsBackends st)) (listeners st)
               (readyState st) (next_backend st),
             [CloseBackend b code reason])
          else (st, [])
      | None => (st, [])
      end
  | ClientError _ => (st, [])
  | BackendOpen b =>
      (mkState (wsBackends st) (listeners st)
         (<[b := OPEN]> (readyState st)) (next_backend st), [])
  | BackendMessage b data =>
      match listeners st !! b with
      | Some c =>
          match data with
          | DataString text => (st, [SendToClient c (Text text)])
          | DataArrayBuffer bytes => (st, [SendToClient c (Binary bytes)])
          | DataBlob bytes => (st, [SendToClientLater c (Binary bytes)])
          | DataOther => (st, [])
          end
      | None => (st, [])
      end
  | BackendClose b code reason =>
      match listeners st !! b with
      | Some c =>
          (mkState (wsBackends st) (listeners st)
             (<[b := CLOSED]> (readyState st)) (next_backend st),
           [CloseClient c code reason])
      | None => (st, [])
      end
  | BackendError b =>
      match listeners st !! b with
      | Some c => (st, [CloseClient c 1011 "Backend error"])
      | None => (st, [])
      end
  end.
End Runtime.

(** The client [c] is bridged to the backend socket [b]: [open] has run
    for [c] and [close] has not. *)
Definition paired (st : State) (c : ClientWs) (b : BackendWs) : Prop :=
  wsBackends st !! c = Some b /\ listeners st !! b = Some c.

(** Backend sockets that have listeners were created earlier. *)
Definition well_formed (st : State) : Prop :=
  forall b c, listeners st !! b = Some c -> b < next_backend st.

(** The event is neither the opening nor the closing of client [c]. *)
Definition keeps_open (c : ClientWs) (e : Event) : Prop :=
  match e with
  | ClientOpen c' _ _ | ClientClose c' _ _ => c' <> c
  | _ => True
  end.

End Bridge.

(** ** Leaf certificates: [src/certs.ts] *)
Module Certs.

Inductive Digest := SHA1 | SHA256 | SHA384 | SHA512.

(** A subject or issuer attribute, [{ name, value }]. *)
Record Attr := mkAttr {
  attr_name : string;
  attr_value : string
}.

(** An entry of [altNames]: [type] 2 is a DNS name. *)
Record AltName := mkAltName {
  alt_type : N;
  alt_value : string
}.

(** The extensions [getCert] sets, with the fields it gives them. *)
Inductive Extension :=
| basicConstraints (cA : bool)
| subjectAltName (altNames : list AltName)
| keyUsage (digitalSignature keyEncipherment : bool)
| extKeyUsage (serverAuth : bool).

(** node-forge as [getCert] uses it: the key types, the RSA key
    generator (its [draw]-th call in the process, for a modulus of
    [bits] bits) and the PEM encoding of private keys. *)
Class Forge := {
  PublicKey : Type;
  PrivateKey : Type;
  generateKeyPair : forall (draw : nat) (bits : N), PublicKey * PrivateKey;
  privateKeyToPem : PrivateKey -> string
}.

Section WithForge.
Context `{F : Forge}.

(** The fields of a [forge.pki.Certificate] that [getCert] fills in;
    times are milliseconds since the epoch. *)
Record Certificate := mkCertificate {
  publicKey : PublicKey;
  serialNumber : string;
  notBefore : Z;
  notAfter : Z;
  subject : list Attr;
  issuer : list Attr;
  extensions : list Extension
}.

(** A certificate after [cert.sign(key, md)]. *)
Record Signed := mkSigned {
  tbs : Certificate;
  signer : PrivateKey;
  md : Digest
}.

(** [forge.pki.certificateToPem]. *)
Variable certificateToPem : Signed -> string.

(** The object [getCert] returns and caches. *)
Record Entry := mkEntry {
  cert : string;
  key : string
}.

(** The module-level variables [caCert], [caKey] and [certCache], and
    the number of key pairs generated so far. *)
Record State := mkState {
  caCert : option Certificate;
  caKey : option PrivateKey;
  certCache : gmap string Entry;
  draws : nat
}.

Definition initial : State := mkState None None ∅ 0.

(** [loadCA()], given the CA files' parsed content if they were found
    and parsed. *)
Definition loadCA (st : State) (files : option (Certificate * PrivateKey))
  : bool * State :=
  match files with
  | Some (c, k) =>
      (true, mkState (Some c) (Some k) (certCache st) (draws st))
  | None => (false, st)
  end.

(** [isMitmAvailable()]. *)
Definition isMitmAvailable (st : State) : bool :=
  match caCert st, caKey st with
  | Some _, Some _ => true
  | _, _ => false
  end.

Definition YEAR_MS : Z := 365 * 24 * 60 * 60 * 1000.

(** Lines 84 to 109: the certificate built and signed for [hostname],
    with the key pair of the given draw; [tSerial] is the clock reading
    of [Date.now()] and [tNow] that of [new Date()]. *)
Definition build_leaf (ca : Certificate) (cak : PrivateKey)
    (hostname : string) (draw : nat) (tSerial tNow : Z)
  : Signed * PrivateKey :=
  let keys := generateKeyPair draw 2048 in
  let c :=
    mkCertificate (fst keys) (Js.toString16 tSerial)
      tNow (tNow + YEAR_MS)
      [mkAttr "commonName" hostname]
      (subject ca)
      [ basicConstraints false;
        subjectAltName [mkAltName 2 hostname];
        keyUsage true true;
        extKeyUsage true ] in
  (mkSigned c cak SHA256, snd keys).

Definition entry_of (leaf : Signed * PrivateKey) : Entry :=
  mkEntry (certificateToPem (fst leaf)) (privateKeyToPem (snd leaf)).

(** [getCert(hostname)]. *)
Definition getCert (st : State) (hostname : string) (tSerial tNow : Z)
  : option Entry * State :=
  match caCert st, caKey st with
  | Some ca, Some cak =>
      match certCache st !! hostname with
      | Some cached => (Some cached, st)
      | None =>
          let result :=
            entry_of
              (build_leaf ca cak hostname (draws st) tSerial tNow) in
          (Some result,
           mkState (caCert st) (caKey st)
             (<[hostname := result]> (certCache st)) (S (draws st)))
      end
  | _, _ => (None, st)
  end.

(** A call of [getCert]: the hostname and the two clock readings. *)
Definition Call : Type := string * Z * Z.

Definition after_call (st : State) (c : Call) : State :=
  let '(h, tSerial, tNow) := c in snd (getCert st h tSerial tNow).

(** The state after the CA was loaded at startup and [getCert] was
    called as [calls] lists. *)
Definition after_calls (ca : Certificate) (cak : PrivateKey)
    (calls : list Call) : State :=
  fold_left after_call calls
    (snd (loadCA initial (Some (ca, cak)))).

(** What holds of the state after any number of calls: the CA is the one
    loaded, every cached entry was built for its hostname with a draw
    already taken, and entries of different hostnames come from different
    draws. *)
Definition cache_ok (ca : Certificate) (cak : PrivateKey) (st : State)
  : Prop :=
  caCert st = Some ca /\ caKey st = Some cak
  /\ (forall h e, certCache st !! h = Some e ->
        exists i tS tN, (i < draws st)%nat
          /\ e = entry_of (build_leaf ca cak h i tS tN))
  /\ (forall h1 h2 e1 e2, h1 <> h2 ->
        certCache st !! h1 = Some e1 -> certCache st !! h2 = Some e2 ->
        exists i1 i2 tS1 tN1 tS2 tN2, i1 <> i2
          /\ e1 = entry_of (build_leaf ca cak h1 i1 tS1 tN1)
          /\ e2 = entry_of (build_leaf ca cak h2 i2 tS2 tN2)).

(** The subject's common name and the DNS names of [subjectAltName]. *)
Definition common_names (c : Certificate) : list string :=
  List.map attr_value
    (List.filter (fun a => String.eqb (attr_name a) "commonName")
       (subject c)).

Definition dns_names (c : Certificate) : list string :=
  List.concat
    (List.map
       (fun e =>
          match e with
          | subjectAltName alts =>
              List.map alt_value
                (List.filter (fun a => (alt_type a =? 2)%N) alts)
          | _ => []
          end)
       (extensions c)).
End WithForge.

End Certs.

(** ** Concrete inputs

    The design document's scenario: the mapping [{testapp: 4000}], the
    daemon on port 9090, a [GET /foo] request. *)
Module Samples.
Import Http.

Definition testapp_mapping : gmap string N := {["testapp" := 4000%N]}.

Definition request_to (host : string) : Request :=
  mkRequest (mkURL "http:" (Js.before_colon host) (Some 9090%N) "/foo" "?a=1")
    "GET"
    [("host", host); ("if-none-match", "W/1"); ("accept", "*/*")]
    None.

Definition request_without_host : Request :=
  mkRequest (mkURL "http:" "localhost" (Some 9090%N) "/" EmptyString)
    "GET" [("accept", "*/*")] None.

(** A backend that refuses the connection. *)
Definition refused (o : Outbound) : Exchange := Failed "ConnectionRefused".

Definition no_redirect (o : Outbound) (r : Response) : option Outbound :=
  None.

(** A clock reading some time after startup. *)
Definition t0 : Z := 1700000000000.

Definition env0 : Router.Env :=
  Router.mkEnv t0 testapp_mapping
    [Router.mkServer "testapp" 4000 4242 "bun run server.ts"]
    true refused no_redirect.

(** Every scan finds the same services. *)
Definition same_scan (k : nat) : gmap string N := testapp_mapping.

(** The bridge after one client, number 7, was opened. *)
Definition one_client : Bridge.State :=
  fst (Bridge.handle Bridge.standard_close_accepts Bridge.initial
         (Bridge.ClientOpen 7 "ws://localhost:4000/ws" "testapp")).

(** A stand-in for node-forge whose [n]-th key pair is the number [n],
    written in PEM as [n] strokes. *)
Fixpoint strokes (n : nat) : string :=
  match n with
  | O => EmptyString
  | S k => String "I"%char (strokes k)
  end.

#[local] Instance tally_forge : Certs.Forge := {|
  Certs.PublicKey := nat;
  Certs.PrivateKey := nat;
  Certs.generateKeyPair := fun draw bits => (draw, draw);
  Certs.privateKeyToPem := strokes
|}.

Definition tally_pem (c : Certs.Signed) : string :=
  "CERTIFICATE " ++ Certs.serialNumber (Certs.tbs c)
    ++ " " ++ strokes (Certs.publicKey (Certs.tbs c)).

Definition tally_ca : Certs.Certificate :=
  Certs.mkCertificate (0%nat : Certs.PublicKey) "1" 0 1
    [Certs.mkAttr "commonName" "mkcert development CA"]
    [Certs.mkAttr "commonName" "mkcert development CA"]
    [Certs.basicConstraints true].

End Samples.

(** ** Sequences of bridge events *)
Module BridgeRun.
Import Bridge.

Section Runtime.
Variable close_accepts : N -> string -> bool.

(** The handlers run for the events in order; the actions are collected
    in the order they are issued. *)
Fixpoint handle_all (st : State) (events : list Event)
  : State * list Action :=
  match events with
  | [] => (st, [])
  | e :: rest =>
      let '(st1, first) := handle close_accepts st e in
      let '(st2, more) := handle_all st1 rest in
      (st2, (first ++ more)%list)
  end.
End Runtime.

(** The event is not the opening of client [c]. *)
Definition not_open (c : ClientWs) (e : Event) : Prop :=
  match e with
  | ClientOpen c' _ _ => c' <> c
  | _ => True
  end.

(** Every bridged client is the one its backend socket's listeners close
    over, and sockets with listeners were created earlier. *)
Definition consistent (st : State) : Prop :=
  well_formed st
  /\ forall c b, wsBackends st !! c = Some b -> listeners st !! b = Some c.

End BridgeRun.

(** ** Locating and loading the CA: [findCaRoot] and [loadCA] of
    [src/certs.ts] *)
Module CaFiles.

(** What the machine answers: the environment variable, the trimmed output
    of [mkcert -CAROOT] ([None] when the spawn throws), the home
    directory, [existsSync] and [readFileSync] ([None] when it throws). *)
Record Machine := mkMachine {
  MKCERT_CA_ROOT : option string;
  mkcert_CAROOT : option string;
  homedir : string;
  existsSync : string -> bool;
  readFileSync : string -> option string
}.

Section WithForge.
Context `{F : Certs.Forge}.

(** [path.join]. *)
Variable join : list string -> string.

(** [forge.pki.certificateFromPem] and [forge.pki.privateKeyFromPem];
    [None] when they throw. *)
Variable certificateFromPem : string -> option Certs.Certificate.
Variable privateKeyFromPem : string -> option Certs.PrivateKey.

(** [findCaRoot()]. *)
Definition findCaRoot (m : Machine) : option string :=
  if Js.truthy_string (MKCERT_CA_ROOT m) then MKCERT_CA_ROOT m
  else
    let asked :=
      match mkcert_CAROOT m with
      | Some dir =>
          if Js.truthy_string (Some dir) && existsSync m dir
          then Some dir else None
      | None => None
      end in
    match asked with
    | Some dir => Some dir
    | None =>
        let home := homedir m in
        let candidates :=
          [ join [home; "Library"; "Application Support"; "mkcert"];
            join [home; ".local"; "share"; "mkcert"] ] in
        List.find (fun dir => existsSync m (join [dir; "rootCA.pem"]))
          candidates
    end.

(** [loadCA()], on the module state of [Certs]: [caCert] is assigned as
    soon as the certificate is parsed, [caKey] after the key is. *)
Definition loadCA (m : Machine) (st : Certs.State) : bool * Certs.State :=
  match findCaRoot m with
  | None => (false, st)
  | Some caRoot =>
      let certPath := join [caRoot; "rootCA.pem"] in
      let keyPath := join [caRoot; "rootCA-key.pem"] in
      if negb (Js.truthy_string (Some caRoot)) then (false, st)
      else if negb (existsSync m certPath) || negb (existsSync m keyPath)
      then (false, st)
      else
        match readFileSync m certPath with
        | None => (false, st)
        | Some certPem =>
            match readFileSync m keyPath with
            | None => (false, st)
            | Some keyPem =>
                match certificateFromPem certPem with
                | None => (false, st)
                | Some c =>
                    let st1 :=
                      Certs.mkState (Some c) (Certs.caKey st)
                        (Certs.certCache st) (Certs.draws st) in
                    match privateKeyFromPem keyPem with
                    | None => (false, st1)
                    | Some k =>
                        (true,
                         Certs.mkState (Some c) (Some k)
                           (Certs.certCache st) (Certs.draws st))
                    end
                end
            end
        end
  end.
End WithForge.

End CaFiles.

(** ** The test backend: the [/big] body of [src/test-backend.ts] *)
Module TestBackend.

Definition chunk : string := "ABCDEFGHIJKLMNOPQRSTUVWXYZ0123456789
".

(** [s.repeat(k)]. *)
Fixpoint repeat (s : string) (k : nat) : string :=
  match k with
  | O => EmptyString
  | S k' => s ++ repeat s k'
  end.

(** [Math.ceil(n / d)] for non-negative integers, [d > 0]. *)
Definition ceil_div (n d : nat) : nat := ((n + d - 1) / d)%nat.

(** The body sent for [/big?n=<n>]:
    [chunk.repeat(Math.ceil(n / chunk.length)).slice(0, n)]. *)
Definition big_body (n : nat) : string :=
  Js.slice_to (repeat chunk (ceil_div n (String.length chunk))) n.

End TestBackend.

(** ** More concrete inputs *)
Module MoreSamples.
Import Http.

(** A WebSocket upgrade request for [testapp], header value in mixed
    case. *)
Definition upgrade_request : Request :=
  mkRequest (mkURL "http:" "testapp.localhost" (Some 9090%N) "/ws" "?room=1")
    "GET"
    [("host", "testapp.localhost:9090"); ("upgrade", "WebSocket")]
    None.

(** A scan that found a service without a usable port. *)
Definition portless_mapping : gmap string N := {["ghost" := 0%N]}.

Definition env_portless : Router.Env :=
  Router.mkEnv Samples.t0 portless_mapping [] true Samples.refused
    Samples.no_redirect.

(** A backend that answers every request with a redirect. *)
Definition moved : Response :=
  mkResponse 302 [("location", "/elsewhere")] EmptyString.

Definition redirecting (o : Outbound) : Exchange := Answered moved.

Definition env_redirecting : Router.Env :=
  Router.mkEnv Samples.t0 Samples.testapp_mapping [] false redirecting
    Samples.no_redirect.

(** A machine whose [MKCERT_CA_ROOT] names a directory without CA files,
    while the default Linux directory holds a CA. *)
Definition plain_join (parts : list string) : string :=
  String.concat "/" parts.

Definition misconfigured : CaFiles.Machine :=
  CaFiles.mkMachine (Some "/nowhere") (Some "/home/dev/.local/share/mkcert")
    "/home/dev"
    (fun path => String.prefix "/home/dev/.local/share/mkcert" path)
    (fun path => Some path).

End MoreSamples.

(** * Properties *)

(** ** Strings *)
Section StringFacts.
Import Js.

Lemma before_colon_free (s : string) :
  colon_free s = true -> before_colon s = s.
Proof.
  induction s as [|c r IH]; simpl; [reflexivity|].
  intros H. apply andb_prop in H as [Hc Hr].
  destruct (Ascii.eqb c ":"); [discriminate|].
  now rewrite IH.
Qed.

Lemma before_colon_port (s p : string) :
  colon_free s = true -> before_colon (s ++ ":" ++ p) = s.
Proof.
  induction s as [|c r IH]; simpl; [reflexivity|].
  intros H. apply andb_prop in H as [Hc Hr].
  destruct (Ascii.eqb c ":"); [discriminate|].
  now rewrite IH.
Qed.

Lemma before_colon_host_header (hn : string) (port : option string) :
  colon_free hn = true -> before_colon (host_header hn port) = hn.
Proof.
  destruct port as [p|]; simpl.
  - apply before_colon_port.
  - apply before_colon_free.
Qed.

Lemma colon_free_app (a b : string) :
  colon_free a = true -> colon_free b = true -> colon_free (a ++ b) = true.
Proof.
  intros Ha Hb. induction a as [|c r IH]; simpl in *; [exact Hb|].
  apply andb_prop in Ha as [Hc Hr]. rewrite Hc. simpl. now apply IH.
Qed.

Lemma endsWith_refl (s : string) : endsWith s s = true.
Proof. destruct s; cbn [endsWith]; now rewrite String.eqb_refl. Qed.

Lemma endsWith_app (a suf : string) : endsWith (a ++ suf) suf = true.
Proof.
  induction a as [|c r IH].
  - apply endsWith_refl.
  - change (String c r ++ suf) with (String c (r ++ suf)).
    cbn [endsWith]. rewrite IH. apply orb_true_r.
Qed.

Lemma endsWith_inv (s suf : string) :
  endsWith s suf = true -> exists pre, s = pre ++ suf.
Proof.
  induction s as [|c r IH]; cbn [endsWith]; intros H.
  - rewrite orb_false_r in H. apply String.eqb_eq in H.
    exists EmptyString. now subst.
  - apply orb_prop in H as [H|H].
    + apply String.eqb_eq in H. exists EmptyString. now rewrite H.
    + destruct (IH H) as [pre ->]. now exists (String c pre).
Qed.

Lemma string_length_app (a b : string) :
  String.length (a ++ b) = (String.length a + String.length b)%nat.
Proof. induction a as [|c r IH]; simpl; [reflexivity|now rewrite IH]. Qed.

Lemma substring_0_0 (s : string) : substring 0 0 s = EmptyString.
Proof. destruct s; reflexivity. Qed.

Lemma slice_to_minus_app (a suf : string) :
  slice_to_minus (a ++ suf) (String.length suf) = a.
Proof.
  unfold slice_to_minus. rewrite string_length_app.
  replace (String.length a + String.length suf - String.length suf)%nat
    with (String.length a) by lia.
  induction a as [|c r IH]; simpl.
  - apply substring_0_0.
  - now rewrite IH.
Qed.

Lemma app_localhost_not_apex (a : string) :
  String.eqb (a ++ ".localhost") "localhost" = false.
Proof.
  apply String.eqb_neq. intros H.
  apply (f_equal String.length) in H. rewrite string_length_app in H.
  simpl in H. lia.
Qed.

Lemma truthy_nonempty (s : string) :
  s <> EmptyString -> truthy_string (Some s) = true.
Proof.
  intros H. simpl. apply negb_true_iff. now apply String.eqb_neq.
Qed.

Lemma host_header_nonempty (hn : string) (port : option string) :
  hn <> EmptyString -> host_header hn port <> EmptyString.
Proof.
  intros H. destruct hn as [|c r]; [congruence|].
  destruct port; simpl; discriminate.
Qed.

Lemma occurs_in_middle (pre s post : string) :
  occurs_in s (pre ++ s ++ post).
Proof. now exists pre, post. Qed.
End StringFacts.

(** ** Classifying a request by its Host header *)
Section Routing.
Import Js Http Router.

Variable PORT : N.

Lemma extractSubdomain_named (name : string) (port : option string) :
  name <> EmptyString ->
  colon_free name = true ->
  extractSubdomain (Some (host_header (name ++ ".localhost") port))
  = Some name.
Proof.
  intros Hne Hcf. unfold extractSubdomain.
  assert (Hhost : host_header (name ++ ".localhost") port <> EmptyString).
  { apply host_header_nonempty. destruct name; [congruence|discriminate]. }
  rewrite (truthy_nonempty _ Hhost). cbn [negb].
  rewrite before_colon_host_header
    by (apply colon_free_app; [exact Hcf|reflexivity]).
  rewrite app_localhost_not_apex, endsWith_app. cbn [negb].
  rewrite slice_to_minus_app, (truthy_nonempty _ Hne). reflexivity.
Qed.

Lemma extractSubdomain_foreign (hn : string) (port : option string) :
  colon_free hn = true ->
  hn <> "localhost" ->
  (forall pre, hn <> pre ++ ".localhost") ->
  extractSubdomain (Some (host_header hn port)) = None.
Proof.
  intros Hcf Hapex Hsuf. unfold extractSubdomain.
  destruct (truthy_string (Some (host_header hn port))); [|reflexivity].
  cbn [negb]. rewrite (before_colon_host_header _ _ Hcf).
  destruct (String.eqb_spec hn "localhost") as [->|_]; [congruence|].
  destruct (endsWith hn ".localhost") eqn:He; [|reflexivity].
  apply endsWith_inv in He as [pre ->]. now destruct (Hsuf pre).
Qed.

Lemma fetch_dashboard (st : State) (env : Env) (req : Request) :
  extractSubdomain (get (headers req) "host") = None
  \/ extractSubdomain (get (headers req) "host") = Some "_" ->
  fetch PORT st env req
  = (Respond (renderDashboard PORT (servers env)), st, [CallScanServers]).
Proof.
  unfold fetch. intros [-> | ->]; reflexivity.
Qed.

Lemma extractSubdomain_port_irrelevant (hn : string) (port : option string) :
  colon_free hn = true ->
  hn <> EmptyString ->
  extractSubdomain (Some (host_header hn port)) = extractSubdomain (Some hn).
Proof.
  intros Hcf Hne. unfold extractSubdomain.
  rewrite (truthy_nonempty _ (host_header_nonempty _ port Hne)).
  rewrite (truthy_nonempty _ Hne).
  now rewrite (before_colon_host_header _ _ Hcf), (before_colon_free _ Hcf).
Qed.

(** C1. A request whose Host header is [<name>.localhost], with or
    without a [:port], for a non-empty [name] other than ["_"], is
    answered with status 404 when the mapping [getMapping] returns has no
    entry for [name]. *)
Theorem unmapped_name_is_404
    (st : State) (env : Env) (req : Request)
    (name : string) (port : option string)
    (mapping : gmap string N) (st' : State) (refresh : list Effect) :
  name <> EmptyString ->
  name <> "_" ->
  colon_free name = true ->
  get (headers req) "host"
  = Some (host_header (name ++ ".localhost") port) ->
  getMapping st (now env) (scanned env) = (mapping, st', refresh) ->
  mapping !! name = None ->
  fetch PORT st env req
  = (Respond (not_found name), st',
     (CallGetMapping :: refresh ++ [MappingGet name])%list)
  /\ status (not_found name) = 404%N.
Proof.
  intros Hne Hus Hcf Hhost Hmap Hnone. split; [|reflexivity].
  unfold fetch.
  rewrite Hhost, (extractSubdomain_named _ _ Hne Hcf).
  rewrite (truthy_nonempty _ Hne). cbn [negb orb].
  destruct (String.eqb_spec name "_") as [E|_]; [contradiction|].
  rewrite Hmap, Hnone. reflexivity.
Qed.

(** C4. A request whose host name, once a [:port] is removed, is
    [localhost], [.localhost] or [_.localhost] is answered with the
    dashboard page; the mapping is not consulted and the module state is
    left as it was. *)
Theorem apex_hosts_get_dashboard
    (st : State) (env : Env) (req : Request)
    (hn : string) (port : option string) :
  hn = "localhost"
  \/ hn = EmptyString ++ ".localhost"
  \/ hn = "_" ++ ".localhost" ->
  get (headers req) "host" = Some (host_header hn port) ->
  fetch PORT st env req
  = (Respond (renderDashboard PORT (servers env)), st, [CallScanServers])
  /\ looks_up_mapping (snd (fetch PORT st env req)) = false.
Proof.
  intros Hhn Hhost.
  assert (Hsub : extractSubdomain (get (headers req) "host") = None
                 \/ extractSubdomain (get (headers req) "host") = Some "_").
  { rewrite Hhost.
    destruct Hhn as [-> | [-> | ->]];
      (rewrite extractSubdomain_port_irrelevant;
       [|reflexivity|discriminate]); cbv; auto. }
  rewrite (fetch_dashboard st env req Hsub). split; reflexivity.
Qed.

(** C10. A request without a Host header, or whose host name (once a
    [:port] is removed) is neither [localhost] nor ends with
    [.localhost], is answered with the dashboard page: status 200, no
    mapping lookup, nothing forwarded. *)
Theorem foreign_hosts_get_dashboard
    (st : State) (env : Env) (req : Request) :
  get (headers req) "host" = None
  \/ (exists hn port,
        get (headers req) "host" = Some (host_header hn port)
        /\ colon_free hn = true
        /\ hn <> "localhost"
        /\ forall pre, hn <> pre ++ ".localhost") ->
  fetch PORT st env req
  = (Respond (renderDashboard PORT (servers env)), st, [CallScanServers])
  /\ status (renderDashboard PORT (servers env)) = 200%N
  /\ looks_up_mapping (snd (fetch PORT st env req)) = false
  /\ forwards (snd (fetch PORT st env req)) = false.
Proof.
  intros H.
  assert (Hsub : extractSubdomain (get (headers req) "host") = None).
  { destruct H as [-> | (hn & port & -> & Hcf & Hapex & Hsuf)].
    - reflexivity.
    - now apply extractSubdomain_foreign. }
  rewrite (fetch_dashboard st env req (or_introl Hsub)).
  repeat split; reflexivity.
Qed.
End Routing.

(** ** The HTTP proxy bridge *)
Section ProxyBridge.
Import Js Http Router.

Variable exchange : Outbound -> Exchange.
Variable next_hop : Outbound -> Response -> option Outbound.

Lemma runtime_fetch_manual (hops : nat) (o : Outbound) :
  o_redirect o = Manual ->
  runtime_fetch exchange next_hop hops o = exchange o.
Proof.
  intros Hm. destruct hops; cbn [runtime_fetch];
    rewrite Hm; now destruct (exchange o).
Qed.

Lemma proxyRequest_cases (req : Request) (targetPort : N) :
  proxyRequest exchange next_hop req targetPort
  = match exchange (proxy_outbound req targetPort) with
    | Answered r => r
    | Failed e =>
        text_response
          ("Failed to proxy to port " ++ String_of_N targetPort
             ++ ": " ++ e) 502
    end.
Proof.
  unfold proxyRequest, js_fetch.
  now rewrite runtime_fetch_manual by reflexivity.
Qed.

Lemma delete_twice (hs : Headers) :
  delete (delete hs "If-None-Match") "If-Modified-Since"
  = List.filter (fun h => negb (conditional h)) hs.
Proof.
  unfold delete, conditional.
  induction hs as [|h hs IH]; [reflexivity|].
  cbn [List.filter].
  destruct (same_name (fst h) "If-None-Match"); cbn [negb orb].
  - exact IH.
  - cbn [List.filter].
    destruct (same_name (fst h) "If-Modified-Since"); cbn [negb];
      now rewrite IH.
Qed.

Lemma set_port_effective (u : URL) (p : N) :
  (p <= 65535)%N -> effective_port (set_port u p) = Some p.
Proof.
  intros Hp. unfold set_port.
  destruct (N.ltb_spec 65535 p) as [Hlt|_]; [lia|].
  unfold effective_port. cbn [port protocol].
  destruct (decide (default_port (protocol u) = Some p)) as [E|_];
    [exact E|reflexivity].
Qed.

(** C2. When the exchange with the backend fails at the transport level,
    [proxyRequest] answers with status 502 and a plain-text body that
    contains the target port in decimal (and the failure's message). *)
Theorem transport_failure_is_502
    (req : Request) (targetPort : N) (e : string) :
  exchange (proxy_outbound req targetPort) = Failed e ->
  let r := proxyRequest exchange next_hop req targetPort in
  status r = 502%N
  /\ get (resp_headers r) "Content-Type" = Some "text/plain;charset=UTF-8"
  /\ resp_body r
     = "Failed to proxy to port " ++ String_of_N targetPort ++ ": " ++ e
  /\ occurs_in (String_of_N targetPort) (resp_body r).
Proof.
  intros Hfail r. subst r. rewrite proxyRequest_cases, Hfail.
  repeat split. apply occurs_in_middle.
Qed.

(** C3. [proxyRequest] sends the request to [localhost] on the target
    port with scheme, path, query, method and body as received; the
    headers sent are the received ones, in order, without those named
    [If-None-Match] or [If-Modified-Since]; redirects are not followed,
    so whatever the backend answers (a 3xx with its [Location] included)
    is the response returned. *)
Theorem proxy_forwards_request
    (req : Request) (targetPort : N) :
  (targetPort <= 65535)%N ->
  let sent := proxy_outbound req targetPort in
  hostname (o_url sent) = "localhost"
  /\ effective_port (o_url sent) = Some targetPort
  /\ protocol (o_url sent) = protocol (url req)
  /\ pathname (o_url sent) = pathname (url req)
  /\ search (o_url sent) = search (url req)
  /\ o_method sent = method req
  /\ o_body sent = body req
  /\ o_headers sent
     = List.filter (fun h => negb (conditional h)) (headers req)
  /\ o_redirect sent = Manual
  /\ forall r : Response,
       exchange sent = Answered r ->
       proxyRequest exchange next_hop req targetPort = r.
Proof.
  intros Hp sent. subst sent.
  assert (Hle : (65535 <? targetPort)%N = false)
    by (apply N.ltb_ge; exact Hp).
  repeat split.
  - unfold proxy_outbound, set_port. cbn [o_url].
    now rewrite Hle.
  - unfold proxy_outbound. cbn [o_url]. now apply set_port_effective.
  - unfold proxy_outbound, set_port. cbn [o_url]. now rewrite Hle.
  - unfold proxy_outbound, set_port. cbn [o_url]. now rewrite Hle.
  - unfold proxy_outbound, set_port. cbn [o_url]. now rewrite Hle.
  - unfold proxy_outbound. cbn [o_headers]. apply delete_twice.
  - intros r Hr. now rewrite proxyRequest_cases, Hr.
Qed.
End ProxyBridge.

(** ** The mapping cache *)
Section MappingCache.
Import Router.

Lemma getMapping_stale (st : State) (now : Z) (scanned : gmap string N) :
  (now - lastScan st > CACHE_TTL_MS)%Z ->
  getMapping st now scanned
  = (scanned, mkState scanned now, [CallBuildMapping]).
Proof.
  intros H. unfold getMapping, getMapping_begin.
  destruct (Z.gtb_spec (now - lastScan st) CACHE_TTL_MS); [reflexivity|lia].
Qed.

Lemma getMapping_fresh (st : State) (now : Z) (scanned : gmap string N) :
  ~ (now - lastScan st > CACHE_TTL_MS)%Z ->
  getMapping st now scanned = (mappingCache st, st, []).
Proof.
  intros H. unfold getMapping, getMapping_begin.
  destruct (Z.gtb_spec (now - lastScan st) CACHE_TTL_MS); [lia|reflexivity].
Qed.

(** C5. [getMapping] calls [buildMapping] exactly when the clock reading
    minus [lastScan] exceeds 5000; then the scan result is returned and
    becomes the whole cache; otherwise the cached mapping is returned and
    the state is untouched. *)
Theorem getMapping_refreshes_iff_stale
    (st : State) (now : Z) (scanned : gmap string N) :
  (In CallBuildMapping (snd (getMapping st now scanned))
   <-> (now - lastScan st > 5000)%Z)
  /\ ((now - lastScan st > 5000)%Z ->
      getMapping st now scanned
      = (scanned, mkState scanned now, [CallBuildMapping]))
  /\ (~ (now - lastScan st > 5000)%Z ->
      getMapping st now scanned = (mappingCache st, st, [])).
Proof.
  change 5000%Z with CACHE_TTL_MS.
  split; [|split].
  - destruct (Z_gt_dec (now - lastScan st) CACHE_TTL_MS) as [H|H].
    + rewrite (getMapping_stale _ _ _ H). cbn. tauto.
    + rewrite (getMapping_fresh _ _ _ H). cbn. tauto.
  - apply getMapping_stale.
  - apply getMapping_fresh.
Qed.
End MappingCache.

(** ** Calls of [getMapping] in flight together *)
Section Coalescing.
Import Router EventLoop.

Variable scan_result : nat -> gmap string N.

Lemma step_begin_stale (st : State) (r : nat) (done todo : list Task)
    (now : Z) :
  (now - lastScan st > CACHE_TTL_MS)%Z ->
  step scan_result (mkSys st r (done ++ NotStarted :: todo))
    (List.length done) now
  = mkSys st (S r) ((done ++ [Suspended now r]) ++ todo).
Proof.
  intros Hstale. unfold step. cbn [tasks state refreshes].
  rewrite list_lookup_middle by reflexivity.
  unfold getMapping_begin.
  destruct (Z.gtb_spec (now - lastScan st) CACHE_TTL_MS); [|lia].
  f_equal.
  replace (List.length done) with (List.length done + 0)%nat by lia.
  rewrite insert_app_r. cbn. now rewrite <- app_assoc.
Qed.

Lemma run_begin_stale (st : State) (nows : list Z) :
  Forall (fun now => (now - lastScan st > CACHE_TTL_MS)%Z) nows ->
  forall (r : nat) (done : list Task),
    run scan_result
      (mkSys st r (done ++ replicate (List.length nows) NotStarted))
      (begin_from (List.length done) nows)
    = mkSys st (r + List.length nows) (done ++ suspended_from r nows).
Proof.
  induction 1 as [|now rest Hnow Hrest IH]; intros r done.
  - cbn. now rewrite Nat.add_0_r.
  - cbn [List.length replicate begin_from run suspended_from].
    rewrite (step_begin_stale _ _ _ _ _ Hnow).
    replace (S (List.length done))
      with (List.length (done ++ [Suspended now r]))
      by (rewrite List.length_app; cbn; lia).
    rewrite IH. f_equal; [lia|]. now rewrite <- app_assoc.
Qed.

Lemma started_suspended_from (k : nat) (nows : list Z) :
  forallb started (suspended_from k nows) = true.
Proof.
  revert k. induction nows as [|now rest IH]; intros k; cbn; auto.
Qed.

Lemma forallb_insert (ts : list Task) (i : nat) (t : Task) :
  forallb started ts = true -> started t = true ->
  forallb started (<[i := t]> ts) = true.
Proof.
  revert i. induction ts as [|x ts IH]; intros i Hts Ht; [exact Hts|].
  cbn in Hts. apply andb_prop in Hts as [Hx Hrest].
  destruct i as [|i]; cbn.
  - now rewrite Ht.
  - rewrite Hx. now apply IH.
Qed.

Lemma forallb_lookup (ts : list Task) (i : nat) :
  forallb started ts = true -> ts !! i <> Some NotStarted.
Proof.
  revert i. induction ts as [|x ts IH]; intros i Hts; [now destruct i|].
  cbn in Hts. apply andb_prop in Hts as [Hx Hrest].
  destruct i as [|i]; cbn.
  - intros [= ->]. discriminate.
  - now apply IH.
Qed.

(** Once every call is past its staleness test, no further scan is
    issued, whatever the event loop runs next. *)
Lemma step_all_started (s : Sys) (i : nat) (now : Z) :
  forallb started (tasks s) = true ->
  refreshes (step scan_result s i now) = refreshes s
  /\ forallb started (tasks (step scan_result s i now)) = true.
Proof.
  intros Hall. unfold step.
  pose proof (forallb_lookup _ i Hall) as Hi.
  destruct (tasks s !! i) as [[|t k|m]|]; try contradiction; cbn;
    split; auto using forallb_insert.
Qed.

Lemma run_all_started (schedule : list (nat * Z)) (s : Sys) :
  forallb started (tasks s) = true ->
  refreshes (run scan_result s schedule) = refreshes s.
Proof.
  revert s. induction schedule as [|[i now] rest IH]; intros s Hall;
    [reflexivity|].
  cbn [run]. destruct (step_all_started s i now Hall) as [Hr Ht].
  now rewrite IH, Hr.
Qed.

Lemma run_app (s : Sys) (a b : list (nat * Z)) :
  run scan_result s (a ++ b) = run scan_result (run scan_result s a) b.
Proof.
  revert s. induction a as [|[i now] a IH]; intros s; [reflexivity|].
  cbn. apply IH.
Qed.

Lemma step_begin_fresh (st : State) (r : nat) (done todo : list Task)
    (now : Z) :
  ~ (now - lastScan st > CACHE_TTL_MS)%Z ->
  step scan_result (mkSys st r (done ++ NotStarted :: todo))
    (List.length done) now
  = mkSys st r ((done ++ [Returned (mappingCache st)]) ++ todo).
Proof.
  intros Hfresh. unfold step. cbn [tasks state refreshes].
  rewrite list_lookup_middle by reflexivity.
  unfold getMapping_begin.
  destruct (Z.gtb_spec (now - lastScan st) CACHE_TTL_MS); [lia|].
  f_equal.
  replace (List.length done) with (List.length done + 0)%nat by lia.
  rewrite insert_app_r. cbn. now rewrite <- app_assoc.
Qed.

Lemma step_returned (s : Sys) (i : nat) (now : Z) (m : gmap string N) :
  tasks s !! i = Some (Returned m) ->
  step scan_result s i now = s.
Proof. intros H. unfold step. now rewrite H. Qed.

Lemma run_one_by_one_fresh (st : State) (nows : list Z) :
  Forall (fun now => ~ (now - lastScan st > CACHE_TTL_MS)%Z) nows ->
  forall (r : nat) (done : list Task),
    refreshes
      (run scan_result
         (mkSys st r (done ++ replicate (List.length nows) NotStarted))
         (one_by_one (List.length done) nows))
    = r.
Proof.
  induction 1 as [|now rest Hnow Hrest IH]; intros r done; [reflexivity|].
  cbn [List.length replicate one_by_one run].
  rewrite (step_begin_fresh _ _ _ _ _ Hnow).
  rewrite (step_returned _ _ _ (mappingCache st)).
  - replace (S (List.length done))
      with (List.length (done ++ [Returned (mappingCache st)]))
      by (rewrite List.length_app; cbn; lia).
    apply IH.
  - cbn [tasks]. rewrite <- app_assoc. cbn [app].
    now apply list_lookup_middle.
Qed.

(** C6, as the code has it. When the requests in flight all find the
    mapping stale before any scan has completed, each of them calls
    [buildMapping]: [n] detections issue [n] scans, and nothing the event
    loop runs afterwards adds or removes one.  One scan serves several
    requests only when they are handled one after the other, the later
    ones within 5000 ms of the first one's clock reading. *)
Theorem concurrent_detections_each_scan
    (st : State) (nows : list Z) (later : list (nat * Z)) :
  Forall (fun now => (now - lastScan st > 5000)%Z) nows ->
  refreshes
    (run scan_result (arrivals st (List.length nows))
       (all_begin nows ++ later))
  = List.length nows
  /\ forall (first : Z) (rest : list Z),
       nows = first :: rest ->
       Forall (fun now => ~ (now - first > 5000)%Z) rest ->
       refreshes
         (run scan_result (arrivals st (List.length nows))
            (one_by_one 0 nows))
       = 1%nat.
Proof.
  intros Hstale. split.
  - rewrite run_app. unfold arrivals, all_begin.
    pose proof (run_begin_stale st nows Hstale 0 []) as Hrun.
    cbn [app List.length] in Hrun. rewrite Hrun.
    rewrite run_all_started.
    + cbn. lia.
    + cbn [tasks]. apply started_suspended_from.
  - intros first rest -> Hrest. apply Forall_cons in Hstale as [Hfirst _].
    unfold arrivals. cbn [List.length replicate one_by_one run].
    pose proof (step_begin_stale st 0 []
                  (replicate (List.length rest) NotStarted) first Hfirst)
      as Hbegin.
    cbn [app List.length] in Hbegin. rewrite Hbegin.
    unfold step at 1. cbn.
    apply (run_one_by_one_fresh (mkState (scan_result 0) first) rest Hrest
             1 [Returned (scan_result 0)]).
Qed.
End Coalescing.

(** ** Closing a bridged pair *)
Section BridgeClose.
Import Bridge.

Variable close_accepts : N -> string -> bool.

Local Abbreviation handle := (Bridge.handle close_accepts).

Lemma open_pairs (st : State) (c : ClientWs) (backendUrl subdomain : string) :
  paired (fst (handle st (ClientOpen c backendUrl subdomain)))
    c (next_backend st).
Proof.
  unfold paired. cbn. split; apply lookup_insert_eq.
Qed.

Lemma well_formed_initial : well_formed initial.
Proof. intros b c. cbn. rewrite lookup_empty. discriminate. Qed.

Lemma well_formed_handle (st : State) (e : Event) :
  well_formed st -> well_formed (fst (handle st e)).
Proof.
  intros Hwf. destruct e as [c u s|c m|c code r|c|b|b d|b code r|b]; cbn;
    try exact Hwf.
  - intros b c'. cbn. rewrite lookup_insert. case_decide as Hd.
    + intros _. lia.
    + intros Hb. apply Hwf in Hb. lia.
  - destruct (wsBackends st !! c) as [b|]; [|exact Hwf].
    now destruct (is_open (readyState st !! b)).
  - destruct (wsBackends st !! c); [|exact Hwf].
    now destruct (close_accepts code r).
  - destruct (listeners st !! b); [|exact Hwf]. now destruct d.
  - now destruct (listeners st !! b).
  - now destruct (listeners st !! b).
Qed.

(** A pair stays bridged until its client closes. *)
Lemma paired_kept (st : State) (c : ClientWs) (b : BackendWs) (e : Event) :
  well_formed st -> paired st c b -> keeps_open c e ->
  paired (fst (handle st e)) c b.
Proof.
  intros Hwf [Hc Hb] Hkeep. unfold paired.
  destruct e as [c' u s|c' m|c' code r|c'|b'|b' d|b' code r|b']; cbn in *.
  - rewrite lookup_insert_ne by exact Hkeep.
    rewrite lookup_insert_ne; [easy|]. apply Hwf in Hb. lia.
  - destruct (wsBackends st !! c') as [b0|]; [|easy].
    now destruct (is_open (readyState st !! b0)).
  - destruct (wsBackends st !! c') as [b0|] eqn:E; [|easy].
    destruct (close_accepts code r); [|easy]. cbn.
    now rewrite lookup_delete_ne by exact Hkeep.
  - easy.
  - easy.
  - destruct (listeners st !! b'); [|easy]. now destruct d.
  - now destruct (listeners st !! b').
  - now destruct (listeners st !! b').
Qed.

(** C9, as the code has it. For a bridged pair, a close of the backend
    socket with [(code, reason)] closes the client with the same
    [(code, reason)]; a close of the client with a [(code, reason)] that
    [close] of the backend socket accepts closes the backend socket with
    the same [(code, reason)] and removes the pair; and an error of the
    backend socket closes the client with code 1011 and the reason
    ["Backend error"]. *)
Theorem close_propagates_both_ways
    (st : State) (c : ClientWs) (b : BackendWs)
    (code : N) (reason : string) :
  paired st c b ->
  (close_accepts code reason = true ->
   handle st (ClientClose c code reason)
   = (mkState (delete c (wsBackends st)) (listeners st) (readyState st)
        (next_backend st),
      [CloseBackend b code reason]))
  /\ snd (handle st (BackendClose b code reason))
     = [CloseClient c code reason]
  /\ snd (handle st (BackendError b))
     = [CloseClient c 1011 "Backend error"].
Proof.
  intros [Hc Hb]. cbn. rewrite Hc, Hb. split; [|now split].
  now intros ->.
Qed.
End BridgeClose.

(** ** Leaf certificates *)
Section LeafCertificates.
Import Certs.

Context `{F : Forge}.
Variable certificateToPem : Signed -> string.
Variable ca : Certificate.
Variable cak : PrivateKey.

Local Abbreviation getCert := (Certs.getCert certificateToPem).
Local Abbreviation entry_of := (Certs.entry_of certificateToPem).
Local Abbreviation after_calls := (Certs.after_calls certificateToPem ca cak).
Local Abbreviation cache_ok := (Certs.cache_ok certificateToPem ca cak).

Lemma getCert_hit (st : State) (h : string) (tS tN : Z) (e : Entry) :
  caCert st = Some ca -> caKey st = Some cak ->
  certCache st !! h = Some e ->
  getCert st h tS tN = (Some e, st).
Proof. intros Hc Hk He. unfold Certs.getCert. now rewrite Hc, Hk, He. Qed.

Lemma getCert_miss (st : State) (h : string) (tS tN : Z) :
  caCert st = Some ca -> caKey st = Some cak ->
  certCache st !! h = None ->
  getCert st h tS tN
  = (Some (entry_of (build_leaf ca cak h (draws st) tS tN)),
     mkState (Some ca) (Some cak)
       (<[h := entry_of (build_leaf ca cak h (draws st) tS tN)]>
          (certCache st))
       (S (draws st))).
Proof. intros Hc Hk He. unfold Certs.getCert. now rewrite Hc, Hk, He. Qed.

Lemma cache_ok_loaded :
  cache_ok (snd (loadCA initial (Some (ca, cak)))).
Proof.
  unfold Certs.cache_ok. cbn. repeat split.
  - intros h e. rewrite lookup_empty. discriminate.
  - intros h1 h2 e1 e2 _. rewrite lookup_empty. discriminate.
Qed.

Lemma cache_ok_getCert (st : State) (h : string) (tS tN : Z) :
  cache_ok st -> cache_ok (snd (getCert st h tS tN)).
Proof.
  intros (Hc & Hk & Hmade & Hdiff).
  destruct (certCache st !! h) as [e|] eqn:Hh.
  - rewrite (getCert_hit _ _ _ _ _ Hc Hk Hh). cbn. now repeat split.
  - rewrite (getCert_miss _ _ _ _ Hc Hk Hh). cbn [snd].
    split; [reflexivity|]. split; [reflexivity|]. cbn. split.
    + intros h0 e0. rewrite lookup_insert. case_decide as Hd.
      * subst h0. intros [= <-]. exists (draws st), tS, tN. split; [lia|easy].
      * intros He0. destruct (Hmade _ _ He0) as (i & tS0 & tN0 & Hi & ->).
        exists i, tS0, tN0. split; [lia|easy].
    + intros h1 h2 e1 e2 Hne. rewrite !lookup_insert.
      case_decide as H1; case_decide as H2.
      * congruence.
      * subst h1. intros [= <-] He2.
        destruct (Hmade _ _ He2) as (i & tS0 & tN0 & Hi & ->).
        exists (draws st), i, tS, tN, tS0, tN0. split; [lia|easy].
      * subst h2. intros He1 [= <-].
        destruct (Hmade _ _ He1) as (i & tS0 & tN0 & Hi & ->).
        exists i, (draws st), tS0, tN0, tS, tN. split; [lia|easy].
      * now apply Hdiff.
Qed.

Lemma cache_ok_fold (calls : list Call) (st : State) :
  cache_ok st -> cache_ok (fold_left (after_call certificateToPem) calls st).
Proof.
  revert st. induction calls as [|[[h tS] tN] calls IH]; intros st Hst;
    [exact Hst|].
  cbn [fold_left]. apply IH. unfold after_call. now apply cache_ok_getCert.
Qed.

Lemma cache_ok_after_calls (calls : list Call) :
  cache_ok (after_calls calls).
Proof. apply cache_ok_fold, cache_ok_loaded. Qed.

Lemma getCert_returns (st : State) (h : string) (tS tN : Z) :
  cache_ok st ->
  exists e, getCert st h tS tN = (Some e, snd (getCert st h tS tN))
    /\ certCache (snd (getCert st h tS tN)) !! h = Some e.
Proof.
  intros (Hc & Hk & _).
  destruct (certCache st !! h) as [e|] eqn:Hh.
  - rewrite (getCert_hit _ _ _ _ _ Hc Hk Hh). now exists e.
  - rewrite (getCert_miss _ _ _ _ Hc Hk Hh). eexists. split; [reflexivity|].
    cbn. apply lookup_insert_eq.
Qed.
Lemma getCert_keeps (st : State) (h h' : string) (tS tN : Z) (e : Entry) :
  cache_ok st ->
  certCache st !! h = Some e ->
  certCache (snd (getCert st h' tS tN)) !! h = Some e.
Proof.
  intros (Hc & Hk & _) He.
  destruct (certCache st !! h') as [e'|] eqn:Hh'.
  - now rewrite (getCert_hit _ _ _ _ _ Hc Hk Hh').
  - rewrite (getCert_miss _ _ _ _ Hc Hk Hh'). cbn.
    rewrite lookup_insert_ne; [exact He|]. intros ->. congruence.
Qed.

(** C7. With the CA loaded, a second [getCert] for a hostname returns the
    very entry the first returned, from the cache.  For two different
    hostnames the entries carry different private-key PEM and certificates
    with different public keys, each with its own hostname as common name
    and as DNS name; this rests on the key generator never producing the
    same key twice and on PEM encoding being one-to-one. *)
Theorem getCert_cached_and_distinct
    (calls : list Call) (h h' : string) (tS tN tS' tN' : Z) :
  (forall i j : nat, i <> j ->
     fst (generateKeyPair i 2048) <> fst (generateKeyPair j 2048)
     /\ snd (generateKeyPair i 2048) <> snd (generateKeyPair j 2048)) ->
  (forall k1 k2 : PrivateKey,
     privateKeyToPem k1 = privateKeyToPem k2 -> k1 = k2) ->
  let st := after_calls calls in
  let st1 := snd (getCert st h tS tN) in
  (exists e,
     getCert st h tS tN = (Some e, st1)
     /\ getCert st1 h tS' tN' = (Some e, st1))
  /\ (h <> h' ->
      exists e e' leaf leaf',
        fst (getCert st h tS tN) = Some e
        /\ fst (getCert st1 h' tS' tN') = Some e'
        /\ cert e = certificateToPem leaf
        /\ cert e' = certificateToPem leaf'
        /\ key e <> key e'
        /\ publicKey (tbs leaf) <> publicKey (tbs leaf')
        /\ common_names (tbs leaf) = [h] /\ dns_names (tbs leaf) = [h]
        /\ common_names (tbs leaf') = [h']
        /\ dns_names (tbs leaf') = [h']).
Proof.
  intros Hkeys Hpem st st1.
  pose proof (cache_ok_after_calls calls) as Hst. fold st in Hst.
  pose proof (cache_ok_getCert st h tS tN Hst) as Hst1. fold st1 in Hst1.
  destruct (getCert_returns st h tS tN Hst) as (e & Hret & Hin).
  fold st1 in Hret, Hin.
  split.
  - exists e. split; [exact Hret|].
    destruct Hst1 as (Hc & Hk & _). now apply getCert_hit.
  - intros Hne.
    destruct (getCert_returns st1 h' tS' tN' Hst1) as (e' & Hret' & Hin').
    pose proof (getCert_keeps st1 h h' tS' tN' e Hst1 Hin) as Hin2.
    pose proof (cache_ok_getCert st1 h' tS' tN' Hst1) as (_ & _ & _ & Hdiff).
    destruct (Hdiff h h' e e' Hne Hin2 Hin')
      as (i1 & i2 & a1 & b1 & a2 & b2 & Hi & -> & ->).
    destruct (Hkeys i1 i2 Hi) as [Hpub Hpriv].
    eexists _, _, _, _.
    split; [now rewrite Hret|]. split; [now rewrite Hret'|].
    split; [reflexivity|]. split; [reflexivity|].
    split; [|split; [exact Hpub|]].
    + cbn. intros E. apply Hpem in E. contradiction.
    + cbn. now repeat split.
Qed.

(** C8. With the CA loaded, the entry [getCert] returns for a hostname is
    the PEM of a leaf built for that hostname: a key pair generated for
    2048 bits, the serial the clock reading in hexadecimal, validity from
    the time of issue to 365 days later, subject [commonName = hostname],
    issuer the CA's subject, the four extensions as listed (the
    alternative name being the hostname as a DNS name), signed with the CA
    key and SHA-256.  When the hostname was not cached, the clock readings
    are those of this very call. *)
Theorem leaf_certificate_shape
    (calls : list Call) (h : string) (tS tN : Z) :
  let st := after_calls calls in
  exists (i : nat) (tS0 tN0 : Z),
    fst (getCert st h tS tN)
    = Some (entry_of (build_leaf ca cak h i tS0 tN0))
    /\ (certCache st !! h = None -> i = draws st /\ tS0 = tS /\ tN0 = tN)
    /\ let leaf := fst (build_leaf ca cak h i tS0 tN0) in
       let priv := snd (build_leaf ca cak h i tS0 tN0) in
       (publicKey (tbs leaf), priv) = generateKeyPair i 2048
       /\ serialNumber (tbs leaf) = Js.toString16 tS0
       /\ notBefore (tbs leaf) = tN0
       /\ notAfter (tbs leaf) = (tN0 + 365 * 24 * 60 * 60 * 1000)%Z
       /\ subject (tbs leaf) = [mkAttr "commonName" h]
       /\ issuer (tbs leaf) = subject ca
       /\ extensions (tbs leaf)
          = [ basicConstraints false;
              subjectAltName [mkAltName 2 h];
              keyUsage true true;
              extKeyUsage true ]
       /\ signer leaf = cak
       /\ md leaf = SHA256.
Proof.
  intros st.
  pose proof (cache_ok_after_calls calls) as Hst. fold st in Hst.
  destruct Hst as (Hc & Hk & Hmade & _).
  assert (Hshape : forall i a b,
    let leaf := fst (build_leaf ca cak h i a b) in
    let priv := snd (build_leaf ca cak h i a b) in
    (publicKey (tbs leaf), priv) = generateKeyPair i 2048
    /\ serialNumber (tbs leaf) = Js.toString16 a
    /\ notBefore (tbs leaf) = b
    /\ notAfter (tbs leaf) = (b + 365 * 24 * 60 * 60 * 1000)%Z
    /\ subject (tbs leaf) = [mkAttr "commonName" h]
    /\ issuer (tbs leaf) = subject ca
    /\ extensions (tbs leaf)
       = [ basicConstraints false;
           subjectAltName [mkAltName 2 h];
           keyUsage true true;
           extKeyUsage true ]
    /\ signer leaf = cak
    /\ md leaf = SHA256).
  { intros i a b. cbn. split; [now destruct (generateKeyPair i 2048)|].
    now repeat split. }
  destruct (certCache st !! h) as [e|] eqn:Hh.
  - destruct (Hmade _ _ Hh) as (i & a & b & _ & ->).
    exists i, a, b. rewrite (getCert_hit _ _ _ _ _ Hc Hk Hh).
    split; [reflexivity|]. split; [discriminate|]. apply Hshape.
  - exists (draws st), tS, tN. rewrite (getCert_miss _ _ _ _ Hc Hk Hh).
    split; [reflexivity|]. split; [easy|]. apply Hshape.
Qed.
End LeafCertificates.

(** ** The properties at concrete inputs *)

Lemma strokes_length (n : nat) : String.length (Samples.strokes n) = n.
Proof. induction n as [|n IH]; cbn; [reflexivity|now rewrite IH]. Qed.

Lemma strokes_inj (a b : nat) :
  Samples.strokes a = Samples.strokes b -> a = b.
Proof.
  intros H. apply (f_equal String.length) in H.
  now rewrite !strokes_length in H.
Qed.

(** [nope.localhost:9999] with the mapping [{testapp: 4000}]: 404. *)
Lemma unmapped_name_is_404_witness :
  Router.fetch 9999 Router.initial Samples.env0
    (Samples.request_to "nope.localhost:9999")
  = (Router.Respond (Router.not_found "nope"),
     Router.mkState Samples.testapp_mapping Samples.t0,
     [Router.CallGetMapping; Router.CallBuildMapping;
      Router.MappingGet "nope"])
  /\ Http.status (Router.not_found "nope") = 404%N.
Proof.
  apply (unmapped_name_is_404 9999 Router.initial Samples.env0
           (Samples.request_to "nope.localhost:9999")
           "nope" (Some "9999")
           Samples.testapp_mapping
           (Router.mkState Samples.testapp_mapping Samples.t0)
           [Router.CallBuildMapping]).
  - discriminate.
  - discriminate.
  - reflexivity.
  - reflexivity.
  - reflexivity.
  - reflexivity.
Defined.

(** [localhost:9090]: the dashboard. *)
Lemma apex_hosts_get_dashboard_witness :
  Router.fetch 9090 Router.initial Samples.env0
    (Samples.request_to "localhost:9090")
  = (Router.Respond
       (Router.renderDashboard 9090 (Router.servers Samples.env0)),
     Router.initial, [Router.CallScanServers])
  /\ Router.looks_up_mapping
       (snd (Router.fetch 9090 Router.initial Samples.env0
               (Samples.request_to "localhost:9090"))) = false.
Proof.
  apply (apex_hosts_get_dashboard 9090 Router.initial Samples.env0
           (Samples.request_to "localhost:9090")
           "localhost" (Some "9090")).
  - left. reflexivity.
  - reflexivity.
Defined.

(** [example.com]: the dashboard as well. *)
Lemma foreign_hosts_get_dashboard_witness :
  Router.fetch 9090 Router.initial Samples.env0
    (Samples.request_to "example.com")
  = (Router.Respond
       (Router.renderDashboard 9090 (Router.servers Samples.env0)),
     Router.initial, [Router.CallScanServers])
  /\ Http.status (Router.renderDashboard 9090 (Router.servers Samples.env0))
     = 200%N
  /\ Router.looks_up_mapping
       (snd (Router.fetch 9090 Router.initial Samples.env0
               (Samples.request_to "example.com"))) = false
  /\ Router.forwards
       (snd (Router.fetch 9090 Router.initial Samples.env0
               (Samples.request_to "example.com"))) = false.
Proof.
  apply (foreign_hosts_get_dashboard 9090 Router.initial Samples.env0
           (Samples.request_to "example.com")).
  right. exists "example.com", None.
  split; [reflexivity|]. split; [reflexivity|]. split; [discriminate|].
  intros pre H.
  pose proof (endsWith_app pre ".localhost") as E.
  rewrite <- H in E. vm_compute in E. discriminate E.
Defined.

(** The backend on port 4000 refuses the connection: 502, naming 4000. *)
Lemma transport_failure_is_502_witness :
  let r := Router.proxyRequest Samples.refused Samples.no_redirect
             (Samples.request_to "testapp.localhost:9090") 4000 in
  Http.status r = 502%N
  /\ Http.get (Http.resp_headers r) "Content-Type"
     = Some "text/plain;charset=UTF-8"
  /\ Http.resp_body r = "Failed to proxy to port 4000: ConnectionRefused"
  /\ Js.occurs_in "4000" (Http.resp_body r).
Proof.
  apply (transport_failure_is_502 Samples.refused Samples.no_redirect
           (Samples.request_to "testapp.localhost:9090") 4000
           "ConnectionRefused").
  reflexivity.
Defined.

(** The scenario's request, forwarded to port 4000. *)
Lemma proxy_forwards_request_witness :
  (4000 <= 65535)%N
  /\ let req := Samples.request_to "testapp.localhost:9090" in
     let sent := Router.proxy_outbound req 4000 in
     Http.hostname (Http.o_url sent) = "localhost"
     /\ Http.effective_port (Http.o_url sent) = Some 4000%N
     /\ Http.protocol (Http.o_url sent) = Http.protocol (Http.url req)
     /\ Http.pathname (Http.o_url sent) = Http.pathname (Http.url req)
     /\ Http.search (Http.o_url sent) = Http.search (Http.url req)
     /\ Http.o_method sent = Http.method req
     /\ Http.o_body sent = Http.body req
     /\ Http.o_headers sent
        = List.filter (fun h => negb (Router.conditional h))
            (Http.headers req)
     /\ Http.o_redirect sent = Http.Manual
     /\ forall r : Http.Response,
          Samples.refused sent = Http.Answered r ->
          Router.proxyRequest Samples.refused Samples.no_redirect req 4000
          = r.
Proof.
  split.
  - vm_compute. discriminate.
  - apply (proxy_forwards_request Samples.refused Samples.no_redirect
             (Samples.request_to "testapp.localhost:9090") 4000).
    vm_compute. discriminate.
Defined.

(** Two requests right after startup: two scans, not one. *)
Lemma two_arrivals_two_scans :
  EventLoop.refreshes
    (EventLoop.run Samples.same_scan
       (EventLoop.arrivals Router.initial 2)
       (EventLoop.concurrent_schedule [Samples.t0; Samples.t0]))
  = 2%nat
  /\ EventLoop.refreshes
       (EventLoop.run Samples.same_scan
          (EventLoop.arrivals Router.initial 2)
          (EventLoop.concurrent_schedule [Samples.t0; Samples.t0]))
     <> 1%nat.
Proof. split; [reflexivity|discriminate]. Qed.

(** Three requests, 0, 1000 and 4000 ms apart: three scans when they are
    in flight together, one when they are handled in turn. *)
Lemma concurrent_detections_each_scan_witness :
  let nows := [Samples.t0; (Samples.t0 + 1000)%Z; (Samples.t0 + 4000)%Z] in
  Forall (fun now => (now - Router.lastScan Router.initial > 5000)%Z) nows
  /\ EventLoop.refreshes
       (EventLoop.run Samples.same_scan
          (EventLoop.arrivals Router.initial 3)
          (EventLoop.all_begin nows ++ EventLoop.all_resume 3))
     = 3%nat
  /\ EventLoop.refreshes
       (EventLoop.run Samples.same_scan
          (EventLoop.arrivals Router.initial 3)
          (EventLoop.one_by_one 0 nows))
     = 1%nat.
Proof.
  intros nows.
  assert (Hstale :
    Forall (fun now => (now - Router.lastScan Router.initial > 5000)%Z) nows)
    by (repeat constructor).
  split; [exact Hstale|].
  destruct (concurrent_detections_each_scan Samples.same_scan Router.initial
              nows (EventLoop.all_resume 3) Hstale) as [Hall Hturn].
  split; [exact Hall|].
  apply (Hturn Samples.t0 [(Samples.t0 + 1000)%Z; (Samples.t0 + 4000)%Z]).
  - reflexivity.
  - repeat constructor; discriminate.
Defined.

(** An error of the client socket runs no handler.  When it surfaces as
    an abnormal close (code 1006), [close] of the backend socket rejects
    the code: the backend socket is not closed and nothing closes the
    client with 1011. *)
Lemma client_error_sends_no_1011 :
  Bridge.paired Samples.one_client 7 0
  /\ Bridge.handle Bridge.standard_close_accepts Samples.one_client
       (Bridge.ClientError 7)
     = (Samples.one_client, [])
  /\ Bridge.handle Bridge.standard_close_accepts Samples.one_client
       (Bridge.ClientClose 7 1006 EmptyString)
     = (Samples.one_client, [])
  /\ ~ In (Bridge.CloseClient 7 1011 "Backend error")
         (snd (Bridge.handle Bridge.standard_close_accepts
                 Samples.one_client (Bridge.ClientError 7)))
  /\ ~ In (Bridge.CloseBackend 0 1006 EmptyString)
         (snd (Bridge.handle Bridge.standard_close_accepts
                 Samples.one_client
                 (Bridge.ClientClose 7 1006 EmptyString))).
Proof.
  split; [split; reflexivity|]. split; [reflexivity|].
  split; [reflexivity|]. split; intros [].
Qed.

(** A normal close (code 1000) in either direction, and a backend
    error. *)
Lemma close_propagates_both_ways_witness :
  Bridge.standard_close_accepts 1000 "bye" = true
  /\ Bridge.handle Bridge.standard_close_accepts Samples.one_client
       (Bridge.ClientClose 7 1000 "bye")
     = (Bridge.mkState (delete 7%nat (Bridge.wsBackends Samples.one_client))
          (Bridge.listeners Samples.one_client)
          (Bridge.readyState Samples.one_client)
          (Bridge.next_backend Samples.one_client),
        [Bridge.CloseBackend 0 1000 "bye"])
  /\ snd (Bridge.handle Bridge.standard_close_accepts Samples.one_client
            (Bridge.BackendClose 0 1000 "bye"))
     = [Bridge.CloseClient 7 1000 "bye"]
  /\ snd (Bridge.handle Bridge.standard_close_accepts Samples.one_client
            (Bridge.BackendError 0))
     = [Bridge.CloseClient 7 1011 "Backend error"].
Proof.
  split; [reflexivity|].
  destruct (close_propagates_both_ways Bridge.standard_close_accepts
              Samples.one_client 7 0 1000 "bye")
    as (Hclient & Hbackend & Herror); [split; reflexivity|].
  split; [apply Hclient; reflexivity|]. split; [exact Hbackend|exact Herror].
Defined.

(** Two hostnames with the stand-in forge, right after the CA was loaded. *)
Lemma getCert_cached_and_distinct_witness :
  let getCert := Certs.getCert Samples.tally_pem in
  let st := Certs.after_calls Samples.tally_pem Samples.tally_ca 0%nat [] in
  let st1 := snd (getCert st "a.localhost" 5%Z 6%Z) in
  (exists e,
     getCert st "a.localhost" 5%Z 6%Z = (Some e, st1)
     /\ getCert st1 "a.localhost" 7%Z 8%Z = (Some e, st1))
  /\ ("a.localhost" <> "b.localhost" ->
      exists e e' leaf leaf',
        fst (getCert st "a.localhost" 5%Z 6%Z) = Some e
        /\ fst (getCert st1 "b.localhost" 7%Z 8%Z) = Some e'
        /\ Certs.cert e = Samples.tally_pem leaf
        /\ Certs.cert e' = Samples.tally_pem leaf'
        /\ Certs.key e <> Certs.key e'
        /\ Certs.publicKey (Certs.tbs leaf)
           <> Certs.publicKey (Certs.tbs leaf')
        /\ Certs.common_names (Certs.tbs leaf) = ["a.localhost"]
        /\ Certs.dns_names (Certs.tbs leaf) = ["a.localhost"]
        /\ Certs.common_names (Certs.tbs leaf') = ["b.localhost"]
        /\ Certs.dns_names (Certs.tbs leaf') = ["b.localhost"]).
Proof.
  apply (getCert_cached_and_distinct Samples.tally_pem Samples.tally_ca
           0%nat [] "a.localhost" "b.localhost" 5%Z 6%Z 7%Z 8%Z).
  - intros i j Hij. split; exact Hij.
  - exact strokes_inj.
Defined.

(** * Further properties of the sources *)

(** ** What [extractSubdomain] returns *)
Section SubdomainFacts.
Import Js Http Router.

Lemma colon_free_before_colon (s : string) :
  colon_free (before_colon s) = true.
Proof.
  induction s as [|c r IH]; [reflexivity|]. cbn [before_colon].
  destruct (Ascii.eqb c ":") eqn:E; [reflexivity|].
  cbn [colon_free]. now rewrite E, IH.
Qed.

Lemma colon_free_app_l (a b : string) :
  colon_free (a ++ b) = true -> colon_free a = true.
Proof.
  induction a as [|c r IH]; [reflexivity|].
  change (String c r ++ b) with (String c (r ++ b)). cbn [colon_free].
  intros H. apply andb_prop in H as [Hc Hr]. now rewrite Hc, IH.
Qed.

Lemma extractSubdomain_Some (h sub : string) :
  extractSubdomain (Some h) = Some sub
  <-> sub <> EmptyString /\ before_colon h = sub ++ ".localhost".
Proof.
  split.
  - unfold extractSubdomain.
    destruct (truthy_string (Some h)); [|discriminate]. cbn [negb].
    destruct (String.eqb (before_colon h) "localhost"); [discriminate|].
    destruct (endsWith (before_colon h) ".localhost") eqn:He;
      [|discriminate].
    cbn [negb]. apply endsWith_inv in He as [pre Hpre]. rewrite Hpre.
    rewrite slice_to_minus_app.
    destruct (truthy_string (Some pre)) eqn:Ht; [|discriminate].
    intros [= <-]. split; [|reflexivity].
    intros ->. discriminate Ht.
  - intros [Hne Hhost]. unfold extractSubdomain.
    assert (Hh : h <> EmptyString).
    { intros ->. cbn in Hhost. destruct sub; discriminate. }
    rewrite (truthy_nonempty _ Hh). cbn [negb]. rewrite Hhost.
    rewrite app_localhost_not_apex, endsWith_app. cbn [negb].
    now rewrite slice_to_minus_app, (truthy_nonempty _ Hne).
Qed.

(** X1. [extractSubdomain] returns a name exactly when the part of the
    Host value before its first colon is that name followed by
    [.localhost], the name being non-empty; the name returned never holds
    a colon. *)
Theorem extractSubdomain_spec (host : option string) (sub : string) :
  (extractSubdomain host = Some sub
   <-> exists h, host = Some h /\ sub <> EmptyString
                 /\ before_colon h = sub ++ ".localhost")
  /\ (extractSubdomain host = Some sub -> colon_free sub = true).
Proof.
  assert (Hiff : extractSubdomain host = Some sub
    <-> exists h, host = Some h /\ sub <> EmptyString
                  /\ before_colon h = sub ++ ".localhost").
  { destruct host as [h|].
    - rewrite extractSubdomain_Some. split.
      + intros [H1 H2]. now exists h.
      + intros (h' & [= <-] & H1 & H2). now split.
    - split; [discriminate|]. intros (h & Hh & _). discriminate. }
  split; [exact Hiff|].
  intros H. apply Hiff in H as (h & _ & _ & Hhost).
  apply (colon_free_app_l sub ".localhost"). rewrite <- Hhost.
  apply colon_free_before_colon.
Qed.
End SubdomainFacts.

(** ** Where [fetch] sends a named request *)
Section Dispatch.
Import Js Http Router.

Variable PORT : N.

Lemma fetch_named (st : State) (env : Env) (req : Request) (name : string) :
  extractSubdomain (get (headers req) "host") = Some name ->
  name <> "_" ->
  fetch PORT st env req
  = let '(mapping, st', refresh) :=
      getMapping st (now env) (scanned env) in
    let looked_up :=
      (CallGetMapping :: refresh ++ [MappingGet name])%list in
    match truthy_port (mapping !! name) with
    | None => (Respond (not_found name), st', looked_up)
    | Some targetPort =>
        if isWebSocketUpgrade req then
          let backend :=
            "ws://localhost:" ++ String_of_N targetPort
              ++ pathname (url req) ++ search (url req) in
          let called := (looked_up ++ [CallUpgrade backend name])%list in
          if upgrade_ok env then
            (Upgraded (mkWsData backend name), st', called)
          else
            (Respond (text_response "WebSocket upgrade failed" 400),
             st', called)
        else
          (Respond (proxyRequest (exchange env) (next_hop env)
                      req targetPort),
           st',
           (looked_up ++ [CallFetch (proxy_outbound req targetPort)])%list)
    end.
Proof.
  intros Hsub Hus. unfold fetch. rewrite Hsub.
  assert (Hne : name <> EmptyString).
  { destruct (get (headers req) "host") as [h|]; [|discriminate].
    now apply extractSubdomain_Some in Hsub as [Hne _]. }
  rewrite (truthy_nonempty _ Hne). cbn [negb orb].
  destruct (String.eqb_spec name "_") as [E|_]; [contradiction|].
  reflexivity.
Qed.

(** X2. A request for a name the mapping gives a non-zero port, and that
    is not a WebSocket upgrade, is answered by [proxyRequest] for that
    port: one lookup, then one call of [fetch] with the rewritten request;
    what the backend answers is the response. *)
Theorem mapped_name_is_proxied
    (st : State) (env : Env) (req : Request) (name : string)
    (mapping : gmap string N) (st' : State) (refresh : list Effect)
    (p : N) :
  extractSubdomain (get (headers req) "host") = Some name ->
  name <> "_" ->
  getMapping st (now env) (scanned env) = (mapping, st', refresh) ->
  mapping !! name = Some p ->
  p <> 0%N ->
  isWebSocketUpgrade req = false ->
  fetch PORT st env req
  = (Respond (proxyRequest (exchange env) (next_hop env) req p), st',
     (CallGetMapping :: refresh
        ++ [MappingGet name; CallFetch (proxy_outbound req p)])%list)
  /\ forall r, exchange env (proxy_outbound req p) = Answered r ->
       fst (fst (fetch PORT st env req)) = Respond r.
Proof.
  intros Hsub Hus Hmap Hp Hnz Hws.
  assert (Hfetch : fetch PORT st env req
    = (Respond (proxyRequest (exchange env) (next_hop env) req p), st',
       (CallGetMapping :: refresh
          ++ [MappingGet name; CallFetch (proxy_outbound req p)])%list)).
  { rewrite (fetch_named st env req name Hsub Hus), Hmap, Hp.
    cbn [truthy_port]. destruct (N.eqb_spec p 0) as [E|_]; [contradiction|].
    rewrite Hws. cbn zeta. cbn [app]. now rewrite <- List.app_assoc. }
  split; [exact Hfetch|].
  intros r Hr. rewrite Hfetch. cbn [fst].
  now rewrite proxyRequest_cases, Hr.
Qed.

(** X3. A mapping entry whose port is 0 counts as no entry: the request
    is answered 404 and nothing is forwarded. *)
Theorem port_zero_is_404
    (st : State) (env : Env) (req : Request) (name : string)
    (mapping : gmap string N) (st' : State) (refresh : list Effect) :
  extractSubdomain (get (headers req) "host") = Some name ->
  name <> "_" ->
  getMapping st (now env) (scanned env) = (mapping, st', refresh) ->
  mapping !! name = Some 0%N ->
  fetch PORT st env req
  = (Respond (not_found name), st',
     (CallGetMapping :: refresh ++ [MappingGet name])%list)
  /\ status (not_found name) = 404%N
  /\ forwards (snd (fetch PORT st env req)) = false.
Proof.
  intros Hsub Hus Hmap Hp.
  assert (Hfetch : fetch PORT st env req
    = (Respond (not_found name), st',
       (CallGetMapping :: refresh ++ [MappingGet name])%list)).
  { now rewrite (fetch_named st env req name Hsub Hus), Hmap, Hp. }
  split; [exact Hfetch|]. split; [reflexivity|].
  rewrite Hfetch. cbn [snd forwards existsb orb].
  rewrite existsb_app. cbn [existsb orb].
  rewrite orb_false_r.
  pose proof (getMapping_fresh st (now env) (scanned env)) as Hf.
  pose proof (getMapping_stale st (now env) (scanned env)) as Hs.
  destruct (Z_gt_dec (now env - lastScan st) CACHE_TTL_MS) as [H|H].
  - rewrite (Hs H) in Hmap. now injection Hmap as _ _ <-.
  - rewrite (Hf H) in Hmap. now injection Hmap as _ _ <-.
Qed.

(** X4. A WebSocket upgrade request (the [Upgrade] value compared without
    regard to case) for a mapped name is handed to [server.upgrade] with
    the backend address [ws://localhost:<port><path><query>]; no HTTP
    request is sent to the backend; a refused upgrade is answered 400. *)
Theorem upgrade_is_bridged
    (st : State) (env : Env) (req : Request) (name : string)
    (mapping : gmap string N) (st' : State) (refresh : list Effect)
    (p : N) (v : string) :
  extractSubdomain (get (headers req) "host") = Some name ->
  name <> "_" ->
  getMapping st (now env) (scanned env) = (mapping, st', refresh) ->
  mapping !! name = Some p ->
  p <> 0%N ->
  get (headers req) "Upgrade" = Some v ->
  toLowerCase v = "websocket" ->
  let backend :=
    "ws://localhost:" ++ String_of_N p
      ++ pathname (url req) ++ search (url req) in
  fetch PORT st env req
  = (if upgrade_ok env
     then Upgraded (mkWsData backend name)
     else Respond (text_response "WebSocket upgrade failed" 400),
     st',
     (CallGetMapping :: refresh
        ++ [MappingGet name; CallUpgrade backend name])%list)
  /\ forall o, ~ In (CallFetch o) (snd (fetch PORT st env req)).
Proof.
  intros Hsub Hus Hmap Hp Hnz Hup Hv backend.
  assert (Hws : isWebSocketUpgrade req = true).
  { unfold isWebSocketUpgrade.
    change (get (headers req) "upgrade") with (get (headers req) "Upgrade").
    rewrite Hup, Hv. reflexivity. }
  assert (Hfetch : fetch PORT st env req
    = (if upgrade_ok env
       then Upgraded (mkWsData backend name)
       else Respond (text_response "WebSocket upgrade failed" 400),
       st',
       (CallGetMapping :: refresh
          ++ [MappingGet name; CallUpgrade backend name])%list)).
  { rewrite (fetch_named st env req name Hsub Hus), Hmap, Hp.
    cbn [truthy_port]. destruct (N.eqb_spec p 0) as [E|_]; [contradiction|].
    rewrite Hws. cbn zeta. fold backend. cbn [app].
    rewrite <- List.app_assoc. now destruct (upgrade_ok env). }
  split; [exact Hfetch|].
  intros o. rewrite Hfetch. cbn [snd]. intros [E|Hin]; [discriminate|].
  apply in_app_or in Hin as [Hin|Hin].
  - pose proof (getMapping_fresh st (now env) (scanned env)) as Hf.
    pose proof (getMapping_stale st (now env) (scanned env)) as Hs.
    destruct (Z_gt_dec (now env - lastScan st) CACHE_TTL_MS) as [H|H].
    + rewrite (Hs H) in Hmap. injection Hmap as _ _ <-.
      destruct Hin as [E|[]]. discriminate.
    + rewrite (Hf H) in Hmap. injection Hmap as _ _ <-. destruct Hin.
  - destruct Hin as [E|[E|[]]]; discriminate.
Qed.
End Dispatch.

(** ** The mapping cache over two calls *)
Section CacheWindow.
Import Router.

(** X5. After a call of [getMapping] that scanned at clock reading [now],
    a call at [now'] returns that scan's result without scanning, whatever
    a scan would find, as long as [now' - now] is at most 5000; beyond
    that it scans again. *)
Theorem cache_serves_for_ttl
    (st : State) (now now' : Z) (first second : gmap string N) :
  (now - lastScan st > 5000)%Z ->
  let st1 := snd (fst (getMapping st now first)) in
  st1 = mkState first now
  /\ ((now' - now <= 5000)%Z ->
      getMapping st1 now' second = (first, st1, []))
  /\ ((now' - now > 5000)%Z ->
      getMapping st1 now' second
      = (second, mkState second now', [CallBuildMapping])).
Proof.
  intros Hstale st1. subst st1.
  rewrite (getMapping_stale st now first Hstale). cbn [fst snd].
  split; [reflexivity|]. split; intros H.
  - rewrite getMapping_fresh; [reflexivity|]. cbn. unfold CACHE_TTL_MS. lia.
  - now rewrite getMapping_stale.
Qed.
End CacheWindow.

(** ** Headers of the forwarded request *)
Section ForwardedHeaders.
Import Js Http Router.

Lemma same_name_trans (a b c : string) :
  same_name a b = true -> same_name b c = true -> same_name a c = true.
Proof.
  unfold same_name. rewrite !String.eqb_eq. congruence.
Qed.

Lemma same_name_sym (a b : string) : same_name a b = same_name b a.
Proof. unfold same_name. apply String.eqb_sym. Qed.

Lemma filter_filter {A : Type} (f g : A -> bool) (l : list A) :
  List.filter f (List.filter g l) = List.filter (fun x => g x && f x) l.
Proof.
  induction l as [|x l IH]; [reflexivity|]. cbn [List.filter].
  destruct (g x); cbn [andb List.filter]; [|exact IH].
  destruct (f x); now rewrite IH.
Qed.

Lemma get_filter (keep : string * string -> bool) (hs : Headers) (n : string) :
  get (List.filter keep hs) n
  = match List.filter (fun h => keep h && same_name (fst h) n) hs with
    | [] => None
    | found => Some (join_values (List.map snd found))
    end.
Proof. unfold get. now rewrite filter_filter. Qed.

(** X6. Whatever the letter case of the name asked for, the request sent
    to the backend has no [If-None-Match] and no [If-Modified-Since]
    header, and [get] returns for every other name what it returns on the
    request received. *)
Theorem forwarded_headers_lookup
    (req : Request) (targetPort : N) (n : string) :
  get (o_headers (proxy_outbound req targetPort)) n
  = if same_name n "If-None-Match" || same_name n "If-Modified-Since"
    then None
    else get (headers req) n.
Proof.
  unfold proxy_outbound. cbn [o_headers]. rewrite delete_twice, get_filter.
  destruct (same_name n "If-None-Match" || same_name n "If-Modified-Since")
    eqn:Hn.
  - rewrite (List.filter_ext _ (fun _ => false)).
    + now induction (headers req) as [|h hs IH].
    + intros h. destruct (same_name (fst h) n) eqn:Hh;
        [|apply andb_false_r].
      rewrite andb_true_r. apply negb_false_iff. unfold conditional.
      apply orb_prop in Hn as [Hn|Hn].
      * now rewrite (same_name_trans _ _ _ Hh Hn).
      * rewrite (same_name_trans _ _ _ Hh Hn). apply orb_true_r.
  - unfold get.
    rewrite (List.filter_ext
               (fun h => negb (conditional h) && same_name (fst h) n)
               (fun h => same_name (fst h) n)); [reflexivity|].
    intros h. destruct (same_name (fst h) n) eqn:Hh;
      [|apply andb_false_r].
    rewrite andb_true_r. apply negb_true_iff. unfold conditional.
    apply orb_false_elim in Hn as [Hn1 Hn2].
    rewrite same_name_sym in Hh.
    destruct (same_name (fst h) "If-None-Match") eqn:E1.
    + now rewrite (same_name_trans _ _ _ Hh E1) in Hn1.
    + destruct (same_name (fst h) "If-Modified-Since") eqn:E2;
        [|reflexivity].
      now rewrite (same_name_trans _ _ _ Hh E2) in Hn2.
Qed.
End ForwardedHeaders.

(** ** The dashboard page *)
Section DashboardPage.
Import Js Http Router.

Variable PORT : N.

Lemma string_app_assoc (a b c : string) : (a ++ b) ++ c = a ++ b ++ c.
Proof.
  induction a as [|x a IH]; [reflexivity|].
  change ((String x a ++ b) ++ c) with (String x ((a ++ b) ++ c)).
  now rewrite IH.
Qed.

Lemma occurs_in_app_l (s a b : string) :
  occurs_in s a -> occurs_in s (a ++ b).
Proof.
  intros (pre & post & ->). exists pre, (post ++ b).
  now rewrite !string_app_assoc.
Qed.

Lemma occurs_in_app_r (s a b : string) :
  occurs_in s b -> occurs_in s (a ++ b).
Proof.
  intros (pre & post & ->). exists (a ++ pre), post.
  now rewrite !string_app_assoc.
Qed.

Lemma occurs_in_fold (t : string) (f : Server -> string)
    (servers : list Server) (acc : string) :
  occurs_in t acc \/ (exists s, In s servers /\ occurs_in t (f s)) ->
  occurs_in t (fold_left (fun acc s => acc ++ f s) servers acc).
Proof.
  revert acc. induction servers as [|x rest IH]; intros acc H.
  - destruct H as [H|(s & [] & _)]. exact H.
  - cbn [fold_left]. apply IH. destruct H as [H|(s & [<-|Hin] & Hs)].
    + left. now apply occurs_in_app_l.
    + left. now apply occurs_in_app_r.
    + right. now exists s.
Qed.

Lemma page_server_link (s : Server) :
  occurs_in ("http://" ++ name s ++ ".localhost:" ++ String_of_N PORT)
    (page_server PORT s).
Proof.
  exists ("
  <div class=" ++ dq ++ "server" ++ dq ++ ">
    <a href=" ++ dq).
  eexists. unfold page_server. rewrite !string_app_assoc. reflexivity.
Qed.

Lemma page_server_port (s : Server) :
  occurs_in ("<span>→ :" ++ String_of_N (server_port s) ++ "</span>")
    (page_server PORT s).
Proof.
  exists ("
  <div class=" ++ dq ++ "server" ++ dq ++ ">
    <a href=" ++ dq ++ "http://" ++ name s ++ ".localhost:" ++ String_of_N PORT ++ dq ++ ">" ++ name s ++ ".localhost:" ++ String_of_N PORT ++ "</a>
    ").
  eexists. unfold page_server. rewrite !string_app_assoc. reflexivity.
Qed.

(** X7. The dashboard page has, for every server [scanServers] reported,
    its address [http://<name>.localhost:<PORT>] and the port it listens
    on; names are put on the page as they are, unescaped. *)
Theorem dashboard_lists_every_server
    (servers : list Server) (s : Server) :
  In s servers ->
  let page := resp_body (renderDashboard PORT servers) in
  occurs_in ("http://" ++ name s ++ ".localhost:" ++ String_of_N PORT) page
  /\ occurs_in ("<span>→ :" ++ String_of_N (server_port s) ++ "</span>")
       page.
Proof.
  intros Hin page. subst page. cbn [renderDashboard resp_body].
  unfold dashboard_html.
  destruct servers as [|x rest]; [destruct Hin|].
  split; apply occurs_in_app_l, occurs_in_fold; right; exists s;
    (split; [exact Hin|]).
  - apply page_server_link.
  - apply page_server_port.
Qed.
End DashboardPage.

(** ** The bridge over sequences of events *)
Section BridgeTraces.
Import Bridge BridgeRun.

Variable close_accepts : N -> string -> bool.

Local Abbreviation handle := (Bridge.handle close_accepts).
Local Abbreviation handle_all := (BridgeRun.handle_all close_accepts).

Lemma handle_all_app (st : State) (a b : list Event) :
  handle_all st (a ++ b)
  = let '(st1, first) := handle_all st a in
    let '(st2, more) := handle_all st1 b in
    (st2, (first ++ more)%list).
Proof.
  revert st. induction a as [|e a IH]; intros st.
  - cbn. now destruct (handle_all st b).
  - cbn [app BridgeRun.handle_all]. destruct (handle st e) as [st1 first].
    rewrite IH. destruct (handle_all st1 a) as [st2 more].
    destruct (handle_all st2 b) as [st3 last].
    now rewrite List.app_assoc.
Qed.

Lemma messages_dropped (st : State) (c : ClientWs) (b : BackendWs)
    (ms : list Payload) :
  wsBackends st !! c = Some b ->
  is_open (readyState st !! b) = false ->
  handle_all st (List.map (ClientMessage c) ms) = (st, []).
Proof.
  intros Hc Hb. induction ms as [|m ms IH]; [reflexivity|].
  cbn [List.map BridgeRun.handle_all Bridge.handle]. now rewrite Hc, Hb, IH.
Qed.

(** X8. Messages the client sends before the backend socket has opened
    are dropped: they cause no call and leave no trace in the state, so
    they are never sent later; once the backend socket has opened, a
    message is passed on to it as it is. *)
Theorem early_messages_are_dropped
    (st : State) (c : ClientWs) (backendUrl subdomain : string)
    (early : list Payload) (m : Payload) :
  let b := next_backend st in
  let opened := ClientOpen c backendUrl subdomain in
  handle_all st (opened :: List.map (ClientMessage c) early)
  = (fst (handle st opened), [NewWebSocket b backendUrl])
  /\ snd (handle_all st
            (opened :: List.map (ClientMessage c) early
               ++ [BackendOpen b; ClientMessage c m]))
     = [NewWebSocket b backendUrl; SendToBackend b m].
Proof.
  intros b opened. subst opened.
  assert (Hearly :
    handle_all (fst (handle st (ClientOpen c backendUrl subdomain)))
      (List.map (ClientMessage c) early)
    = (fst (handle st (ClientOpen c backendUrl subdomain)), [])).
  { apply (messages_dropped _ c b); cbn.
    - apply lookup_insert_eq.
    - now rewrite lookup_insert_eq. }
  cbn [Bridge.handle fst] in Hearly.
  split.
  - cbn [BridgeRun.handle_all Bridge.handle fst]. now rewrite Hearly.
  - cbn [BridgeRun.handle_all Bridge.handle].
    rewrite handle_all_app, Hearly.
    cbn. rewrite lookup_insert_eq. cbn. now rewrite lookup_insert_eq.
Qed.

Lemma unregistered_kept (st : State) (c : ClientWs) (e : Event) :
  wsBackends st !! c = None -> not_open c e ->
  wsBackends (fst (handle st e)) !! c = None.
Proof.
  intros Hc He.
  destruct e as [c' u s|c' m|c' code r|c'|b'|b' d|b' code r|b']; cbn in *.
  - now rewrite lookup_insert_ne.
  - destruct (wsBackends st !! c') as [b0|]; [|easy].
    now destruct (is_open (readyState st !! b0)).
  - destruct (wsBackends st !! c') as [b0|]; [|easy].
    destruct (close_accepts code r); [|easy]. cbn.
    destruct (decide (c' = c)) as [->|Hne].
    + apply lookup_delete_eq.
    + now rewrite lookup_delete_ne.
  - easy.
  - easy.
  - destruct (listeners st !! b'); [|easy]. now destruct d.
  - now destruct (listeners st !! b').
  - now destruct (listeners st !! b').
Qed.

Lemma unregistered_kept_all (later : list Event) (st : State) (c : ClientWs) :
  wsBackends st !! c = None -> Forall (not_open c) later ->
  wsBackends (fst (handle_all st later)) !! c = None.
Proof.
  revert st. induction later as [|e later IH]; intros st Hc Hall;
    [exact Hc|].
  apply Forall_cons in Hall as [He Hall]. cbn [BridgeRun.handle_all].
  pose proof (unregistered_kept st c e Hc He) as H1.
  destruct (handle st e) as [st1 first]. cbn [fst] in H1.
  specialize (IH st1 H1 Hall).
  now destruct (handle_all st1 later) as [st2 more].
Qed.

(** X9. Once a client's close handler has run with a code and reason that
    [close] of the backend socket accepts (or for a client that has no
    entry), the client has no entry in [wsBackends] and gets none until it
    is opened again: a later message from it is forwarded nowhere and a
    second close closes nothing.  With a code or reason that [close]
    rejects, the handler changes nothing: the entry stays and the backend
    socket is not closed. *)
Theorem closed_client_is_forgotten
    (st : State) (c : ClientWs) (code : N) (reason : string)
    (later : list Event) (m : Payload) (code' : N) (reason' : string) :
  Forall (not_open c) later ->
  let st1 := fst (handle st (ClientClose c code reason)) in
  let st2 := fst (handle_all st1 later) in
  (close_accepts code reason = true \/ wsBackends st !! c = None ->
   wsBackends st2 !! c = None
   /\ handle st2 (ClientMessage c m) = (st2, [])
   /\ handle st2 (ClientClose c code' reason') = (st2, []))
  /\ (close_accepts code reason = false ->
      handle st (ClientClose c code reason) = (st, [])).
Proof.
  intros Hlater st1 st2. split.
  - intros Hok.
    assert (H1 : wsBackends st1 !! c = None).
    { subst st1. cbn. destruct (wsBackends st !! c) as [b|] eqn:E.
      - destruct Hok as [->|Hnone]; [|discriminate]. cbn.
        apply lookup_delete_eq.
      - exact E. }
    assert (H2 : wsBackends st2 !! c = None)
      by now apply unregistered_kept_all.
    clearbody st2. split; [exact H2|].
    assert (H3 : @lookup ClientWs BackendWs _ _ c (wsBackends st2) = None)
      by exact H2.
    cbn [Bridge.handle]. now rewrite H3.
  - intros Hno. cbn [Bridge.handle]. rewrite Hno.
    now destruct (wsBackends st !! c).
Qed.

Lemma consistent_initial : consistent initial.
Proof.
  split; [apply well_formed_initial|].
  intros c b. cbn. rewrite lookup_empty. discriminate.
Qed.

Lemma consistent_handle (st : State) (e : Event) :
  consistent st -> consistent (fst (handle st e)).
Proof.
  intros [Hwf Hpair]. split; [now apply well_formed_handle|].
  destruct e as [c' u s|c' m|c' code r|c'|b'|b' d|b' code r|b']; cbn.
  - intros c b. rewrite lookup_insert. case_decide as Hd.
    + intros [= <-]. subst c. apply lookup_insert_eq.
    + intros Hc. pose proof (Hpair _ _ Hc) as Hb.
      rewrite lookup_insert_ne; [exact Hb|]. apply Hwf in Hb. lia.
  - destruct (wsBackends st !! c') as [b0|]; [|exact Hpair].
    now destruct (is_open (readyState st !! b0)).
  - destruct (wsBackends st !! c') as [b0|]; [|exact Hpair].
    destruct (close_accepts code r); [|exact Hpair]. cbn.
    intros c b Hc. apply lookup_delete_Some in Hc as [_ Hc]. now apply Hpair.
  - exact Hpair.
  - exact Hpair.
  - destruct (listeners st !! b'); [|exact Hpair]. now destruct d.
  - now destruct (listeners st !! b').
  - now destruct (listeners st !! b').
Qed.

Lemma consistent_handle_all (events : list Event) (st : State) :
  consistent st -> consistent (fst (handle_all st events)).
Proof.
  revert st. induction events as [|e events IH]; intros st Hst;
    [exact Hst|].
  cbn [BridgeRun.handle_all].
  pose proof (consistent_handle st e Hst) as H1.
  destruct (handle st e) as [st1 first]. cbn [fst] in H1.
  specialize (IH st1 H1).
  now destruct (handle_all st1 events) as [st2 more].
Qed.

(** X10. Whatever events have been handled since startup, no backend
    socket is bridged to two clients, and the listeners of a client's
    backend socket are the ones made for that client. *)
Theorem backend_sockets_are_not_shared
    (events : list Event) (c1 c2 : ClientWs) (b : BackendWs) :
  let st := fst (handle_all initial events) in
  wsBackends st !! c1 = Some b ->
  wsBackends st !! c2 = Some b ->
  c1 = c2 /\ listeners st !! b = Some c1.
Proof.
  intros st H1 H2.
  destruct (consistent_handle_all events initial consistent_initial)
    as [_ Hpair].
  fold st in Hpair. pose proof (Hpair _ _ H1) as L1.
  pose proof (Hpair _ _ H2) as L2. split; [congruence|exact L1].
Qed.
End BridgeTraces.

(** ** How many scans a set of requests can issue *)
Section ScanBound.
Import Router EventLoop.

Variable scan_result : nat -> gmap string N.

Local Abbreviation pending ts :=
  (List.length (List.filter (fun t => negb (started t)) ts)).

Lemma pending_insert_started (ts : list Task) (i : nat) (t : Task) :
  started t = true ->
  (pending (<[i := t]> ts) <= pending ts)%nat
  /\ (ts !! i = Some NotStarted ->
      (S (pending (<[i := t]> ts)) = pending ts)%nat).
Proof.
  intros Ht. revert i. induction ts as [|x ts IH]; intros i.
  - split; [reflexivity|]. now destruct i.
  - destruct i as [|i].
    + cbn [insert list_insert List.filter]. rewrite Ht. cbn [negb].
      split.
      * destruct (negb (started x)); cbn [List.length]; lia.
      * intros [= ->]. reflexivity.
    + destruct (IH i) as [Hle Heq]. cbn [insert list_insert List.filter].
      change (list_insert i t ts) with (<[i := t]> ts).
      destruct (negb (started x)); cbn [List.length lookup list_lookup].
      * split; [now apply le_n_S|]. intros H. f_equal. now apply Heq.
      * split; [exact Hle|]. intros H. now apply Heq.
Qed.

Lemma step_scan_budget (s : Sys) (i : nat) (now : Z) :
  (refreshes (step scan_result s i now)
   + pending (tasks (step scan_result s i now))
   <= refreshes s + pending (tasks s))%nat.
Proof.
  unfold step. destruct (tasks s !! i) as [[|t k|m]|] eqn:Hi; [| |lia|lia].
  - destruct (getMapping_begin (state s) now) as [m|t];
      cbn [refreshes tasks].
    + destruct (pending_insert_started (tasks s) i (Returned m) eq_refl)
        as [Hle _]. lia.
    + destruct (pending_insert_started (tasks s) i
                  (Suspended t (refreshes s)) eq_refl) as [_ Heq].
      specialize (Heq Hi). lia.
  - cbn [getMapping_resume refreshes tasks].
    destruct (pending_insert_started (tasks s) i
                (Returned (scan_result k)) eq_refl) as [Hle _]. lia.
Qed.

Lemma run_scan_budget (schedule : list (nat * Z)) (s : Sys) :
  (refreshes (run scan_result s schedule)
   <= refreshes s + pending (tasks s))%nat.
Proof.
  revert s. induction schedule as [|[i now] rest IH]; intros s;
    cbn [run]; [lia|].
  pose proof (IH (step scan_result s i now)).
  pose proof (step_scan_budget s i now). lia.
Qed.

Lemma pending_replicate (n : nat) : pending (replicate n NotStarted) = n.
Proof. induction n as [|n IH]; cbn; [reflexivity|now rewrite IH]. Qed.

(** X11. However the event loop interleaves them, [n] calls of
    [getMapping] issue at most [n] scans: a call never scans twice. *)
Theorem at_most_one_scan_per_call
    (st : State) (n : nat) (schedule : list (nat * Z)) :
  (refreshes (run scan_result (arrivals st n) schedule) <= n)%nat.
Proof.
  pose proof (run_scan_budget schedule (arrivals st n)) as H.
  unfold arrivals in *. cbn [refreshes tasks] in H.
  now rewrite pending_replicate in H.
Qed.
End ScanBound.

(** ** The certificate cache over many calls *)
Section CertificateCache.
Import Certs.

Context `{F : Forge}.
Variable certificateToPem : Signed -> string.
Variable ca : Certificate.
Variable cak : PrivateKey.

Local Abbreviation getCert := (Certs.getCert certificateToPem).
Local Abbreviation after_call := (Certs.after_call certificateToPem).
Local Abbreviation after_calls := (Certs.after_calls certificateToPem ca cak).
Local Abbreviation cache_ok := (Certs.cache_ok certificateToPem ca cak).

Lemma getCert_without_ca (st : State) (h : string) (tS tN : Z) :
  isMitmAvailable st = false -> getCert st h tS tN = (None, st).
Proof.
  unfold Certs.getCert, isMitmAvailable.
  now destruct (caCert st) as [c|], (caKey st) as [k|].
Qed.

(** X12. [getCert] returns [null] exactly when [isMitmAvailable] is
    false, that is when the CA certificate or its key is missing; it then
    generates no key and caches nothing. *)
Theorem getCert_needs_ca (st : State) (h : string) (tS tN : Z) :
  (fst (getCert st h tS tN) = None <-> isMitmAvailable st = false)
  /\ (isMitmAvailable st = false -> getCert st h tS tN = (None, st)).
Proof.
  split; [|apply getCert_without_ca]. split.
  - unfold Certs.getCert, isMitmAvailable.
    destruct (caCert st) as [c|], (caKey st) as [k|]; try reflexivity.
    now destruct (certCache st !! h).
  - intros H. now rewrite getCert_without_ca.
Qed.

Lemma cached_kept_fold (more : list Call) (st : State) (h : string)
    (e : Entry) :
  cache_ok st -> certCache st !! h = Some e ->
  cache_ok (fold_left after_call more st)
  /\ certCache (fold_left after_call more st) !! h = Some e.
Proof.
  revert st. induction more as [|[[h' tS] tN] more IH]; intros st Hok He;
    [now split|].
  cbn [fold_left]. apply IH.
  - now apply (cache_ok_getCert certificateToPem ca cak).
  - now apply (getCert_keeps certificateToPem ca cak).
Qed.

(** X13. Nothing is ever evicted or replaced: once [getCert] has returned
    an entry for a hostname, every later call for that hostname returns
    the same entry, whatever calls for this or other hostnames come in
    between. *)
Theorem cached_entry_is_permanent
    (calls more : list Call) (h : string) (tS tN tS' tN' : Z) :
  let st := after_calls calls in
  let st' := fold_left after_call more (snd (getCert st h tS tN)) in
  fst (getCert st' h tS' tN') = fst (getCert st h tS tN)
  /\ fst (getCert st h tS tN) <> None.
Proof.
  intros st st'.
  pose proof (cache_ok_after_calls certificateToPem ca cak calls) as Hst.
  destruct (getCert_returns certificateToPem ca cak st h tS tN Hst)
    as (e & Hret & Hin).
  pose proof (cache_ok_getCert certificateToPem ca cak st h tS tN Hst)
    as Hst1.
  destruct (cached_kept_fold more _ h e Hst1 Hin) as [Hok' Hin'].
  fold st' in Hok', Hin'. rewrite Hret. cbn [fst]. split; [|discriminate].
  destruct Hok' as (Hc & Hk & _).
  now rewrite (getCert_hit certificateToPem ca cak st' h tS' tN' e Hc Hk Hin').
Qed.

Lemma counted_getCert (st : State) (h : string) (tS tN : Z) :
  caCert st = Some ca -> caKey st = Some cak ->
  draws st = size (certCache st) ->
  let st' := snd (getCert st h tS tN) in
  caCert st' = Some ca /\ caKey st' = Some cak
  /\ draws st' = size (certCache st')
  /\ forall x, is_Some (certCache st' !! x)
               <-> is_Some (certCache st !! x) \/ x = h.
Proof.
  intros Hc Hk Hn st'. subst st'.
  destruct (certCache st !! h) as [e|] eqn:Hh.
  - rewrite (getCert_hit certificateToPem ca cak st h tS tN e Hc Hk Hh).
    cbn [snd]. repeat split; auto.
    intros [H| ->]; [exact H|]. now rewrite Hh.
  - rewrite (getCert_miss certificateToPem ca cak st h tS tN Hc Hk Hh).
    cbn [snd caCert caKey draws certCache]. repeat split.
    + rewrite map_size_insert_None by exact Hh. now rewrite Hn.
    + rewrite lookup_insert. case_decide as Hd; [now right|now left].
    + intros [H| ->].
      * rewrite lookup_insert. case_decide; [eauto|exact H].
      * rewrite lookup_insert_eq. eauto.
Qed.

Lemma counted_fold (calls : list Call) (st : State) :
  caCert st = Some ca -> caKey st = Some cak ->
  draws st = size (certCache st) ->
  let st' := fold_left after_call calls st in
  draws st' = size (certCache st')
  /\ forall x, is_Some (certCache st' !! x)
               <-> is_Some (certCache st !! x)
                   \/ In x (List.map (fun c : Call => fst (fst c)) calls).
Proof.
  revert st. induction calls as [|[[h tS] tN] calls IH]; intros st Hc Hk Hn.
  - cbn. split; [exact Hn|]. intros x. tauto.
  - cbn [fold_left List.map In fst].
    destruct (counted_getCert st h tS tN Hc Hk Hn) as (Hc1 & Hk1 & Hn1 & Hd1).
    destruct (IH _ Hc1 Hk1 Hn1) as [Hn2 Hd2].
    split; [exact Hn2|]. intros x. cbv zeta in Hd2. rewrite Hd2.
    rewrite Hd1. intuition congruence.
Qed.

(** X14. One key pair is generated per hostname: after any calls, the
    number of key pairs generated equals the number of cached entries, and
    the cached hostnames are exactly those [getCert] was called with. *)
Theorem one_key_pair_per_hostname (calls : list Call) :
  let st := after_calls calls in
  draws st = size (certCache st)
  /\ forall h, is_Some (certCache st !! h)
               <-> In h (List.map (fun c : Call => fst (fst c)) calls).
Proof.
  intros st. subst st. unfold Certs.after_calls.
  destruct (counted_fold calls (snd (loadCA initial (Some (ca, cak)))))
    as [Hn Hd]; try reflexivity.
  split; [exact Hn|]. intros h. cbv zeta in Hd. rewrite Hd. cbn.
  rewrite lookup_empty. split; [intros [[x Hx]|H]|]; auto. discriminate.
Qed.
End CertificateCache.

(** ** Locating and loading the CA *)
Section CaLoading.
Import Certs CaFiles.

Context `{F : Forge}.
Variable join : list string -> string.
Variable certificateFromPem : string -> option Certificate.
Variable privateKeyFromPem : string -> option PrivateKey.
Variable certificateToPem : Signed -> string.

Local Abbreviation findCaRoot := (CaFiles.findCaRoot join).
Local Abbreviation loadCA :=
  (CaFiles.loadCA join certificateFromPem privateKeyFromPem).

(** X15. A non-empty [MKCERT_CA_ROOT] is the CA root, without a check
    that it exists and without asking mkcert; when a CA file is missing
    there, [loadCA] fails and changes nothing: it does not fall back to
    mkcert's own answer or to the default directories. *)
Theorem env_root_is_final (m : Machine) (dir : string) :
  MKCERT_CA_ROOT m = Some dir ->
  dir <> EmptyString ->
  findCaRoot m = Some dir
  /\ (existsSync m (join [dir; "rootCA.pem"])
      && existsSync m (join [dir; "rootCA-key.pem"]) = false ->
      forall st, loadCA m st = (false, st)).
Proof.
  intros Henv Hne.
  assert (Hroot : findCaRoot m = Some dir).
  { unfold CaFiles.findCaRoot. rewrite Henv.
    now rewrite (truthy_nonempty _ Hne). }
  split; [exact Hroot|]. intros Hmissing st.
  unfold CaFiles.loadCA. rewrite Hroot, (truthy_nonempty _ Hne).
  cbn [negb]. rewrite <- negb_andb, Hmissing. reflexivity.
Qed.

(** X16. Starting without a CA key, [loadCA] returns [true] exactly when
    MITM is available afterwards.  When it returns [true], both files of
    the root [findCaRoot] chose were read and parsed and the state is the
    one with that certificate and key; when it returns [false], [getCert]
    returns [null] for every hostname. *)
Theorem loadCA_outcome (m : Machine) (st : State) :
  caKey st = None ->
  let result := loadCA m st in
  fst result = isMitmAvailable (snd result)
  /\ (fst result = true ->
      exists root certPem keyPem c k,
        findCaRoot m = Some root
        /\ readFileSync m (join [root; "rootCA.pem"]) = Some certPem
        /\ readFileSync m (join [root; "rootCA-key.pem"]) = Some keyPem
        /\ certificateFromPem certPem = Some c
        /\ privateKeyFromPem keyPem = Some k
        /\ result = Certs.loadCA st (Some (c, k)))
  /\ (fst result = false ->
      forall h tS tN,
        fst (Certs.getCert certificateToPem (snd result) h tS tN) = None).
Proof.
  intros Hkey result.
  assert (Hnone : forall s, caKey s = None -> isMitmAvailable s = false).
  { intros s H. unfold isMitmAvailable. rewrite H. now destruct (caCert s). }
  assert (Hoff : forall s, isMitmAvailable s = false ->
            forall h tS tN,
              fst (Certs.getCert certificateToPem s h tS tN) = None).
  { intros s H h tS tN.
    now rewrite (getCert_without_ca certificateToPem s h tS tN H). }
  subst result. unfold CaFiles.loadCA.
  destruct (findCaRoot m) as [root|] eqn:Hroot;
    [|cbn [fst snd]; rewrite (Hnone st Hkey); repeat split;
      [discriminate|auto]].
  destruct (negb (Js.truthy_string (Some root)));
    [cbn [fst snd]; rewrite (Hnone st Hkey); repeat split;
      [discriminate|auto]|].
  destruct (negb (existsSync m (join [root; "rootCA.pem"]))
            || negb (existsSync m (join [root; "rootCA-key.pem"])));
    [cbn [fst snd]; rewrite (Hnone st Hkey); repeat split;
      [discriminate|auto]|].
  destruct (readFileSync m (join [root; "rootCA.pem"])) as [certPem|] eqn:Hc;
    [|cbn [fst snd]; rewrite (Hnone st Hkey); repeat split;
      [discriminate|auto]].
  destruct (readFileSync m (join [root; "rootCA-key.pem"]))
    as [keyPem|] eqn:Hk;
    [|cbn [fst snd]; rewrite (Hnone st Hkey); repeat split;
      [discriminate|auto]].
  destruct (certificateFromPem certPem) as [c|] eqn:Hpc;
    [|cbn [fst snd]; rewrite (Hnone st Hkey); repeat split;
      [discriminate|auto]].
  destruct (privateKeyFromPem keyPem) as [k|] eqn:Hpk; cbn [fst snd].
  - split; [reflexivity|]. split; [|discriminate].
    intros _. now exists root, certPem, keyPem, c, k.
  - rewrite Hnone by exact Hkey. repeat split; [discriminate|].
    intros _. apply Hoff, Hnone. exact Hkey.
Qed.
End CaLoading.

(** ** The test backend's [/big] body *)
Section BigBody.
Import TestBackend.

Lemma repeat_length (s : string) (k : nat) :
  String.length (repeat s k) = (k * String.length s)%nat.
Proof.
  induction k as [|k IH]; [reflexivity|].
  cbn [repeat]. rewrite string_length_app, IH. lia.
Qed.

Lemma substring_length (s : string) (n : nat) :
  (n <= String.length s)%nat -> String.length (substring 0 n s) = n.
Proof.
  revert n. induction s as [|c s IH]; intros [|n] H; cbn in *;
    try reflexivity; try lia.
  rewrite IH; [reflexivity|lia].
Qed.

Lemma substring_get (s : string) (n i : nat) :
  (i < n)%nat -> String.get i (substring 0 n s) = String.get i s.
Proof.
  revert n i. induction s as [|c s IH]; intros [|n] i H; cbn;
    try reflexivity; try lia.
  destruct i as [|i]; [reflexivity|]. apply IH. lia.
Qed.

Lemma ceil_div_covers (n d : nat) :
  (0 < d)%nat -> (n <= ceil_div n d * d)%nat.
Proof.
  intros Hd. unfold ceil_div.
  pose proof (Nat.div_mod_eq (n + d - 1) d) as E.
  pose proof (Nat.mod_upper_bound (n + d - 1) d) as B. nia.
Qed.

Lemma repeat_get (s : string) (k i : nat) :
  (0 < String.length s)%nat ->
  (i < k * String.length s)%nat ->
  String.get i (repeat s k) = String.get (i mod String.length s) s.
Proof.
  intros Hs. revert i. induction k as [|k IH]; intros i Hi; [lia|].
  cbn [repeat]. destruct (Nat.lt_ge_cases i (String.length s)) as [Hlt|Hge].
  - rewrite <- append_correct1 by exact Hlt.
    now rewrite Nat.mod_small.
  - replace i with ((i - String.length s) + String.length s)%nat at 1
      by lia.
    rewrite <- append_correct2, IH by lia.
    f_equal.
    replace i with ((i - String.length s) + 1 * String.length s)%nat at 2
      by lia.
    now rewrite Nat.Div0.mod_add.
Qed.

(** X17. The body sent for [/big?n=<n>] has exactly [n] characters, and
    its [i]-th character is the [(i mod 37)]-th of the 37-character
    pattern. *)
Theorem big_body_is_the_pattern (n : nat) :
  String.length (big_body n) = n
  /\ forall i, (i < n)%nat ->
       String.get i (big_body n) = String.get (i mod 37) chunk.
Proof.
  assert (Hcover : (n <= ceil_div n 37 * 37)%nat)
    by (apply ceil_div_covers; lia).
  unfold big_body, Js.slice_to.
  change (String.length chunk) with 37%nat.
  split.
  - apply substring_length. rewrite repeat_length.
    change (String.length chunk) with 37%nat. exact Hcover.
  - intros i Hi. rewrite substring_get by exact Hi.
    change 37%nat with (String.length chunk) at 2.
    apply repeat_get; change (String.length chunk) with 37%nat; lia.
Qed.
End BigBody.

(** ** The further properties at concrete inputs *)

(** The scenario's request with a backend that answers 302: the 302 is
    the response. *)
Lemma mapped_name_is_proxied_witness :
  let req := Samples.request_to "testapp.localhost:9090" in
  let env := MoreSamples.env_redirecting in
  Router.fetch 9090 Router.initial env req
  = (Router.Respond
       (Router.proxyRequest (Router.exchange env) (Router.next_hop env)
          req 4000),
     Router.mkState Samples.testapp_mapping Samples.t0,
     [Router.CallGetMapping; Router.CallBuildMapping;
      Router.MappingGet "testapp";
      Router.CallFetch (Router.proxy_outbound req 4000)])
  /\ forall r,
       Router.exchange env (Router.proxy_outbound req 4000)
       = Http.Answered r ->
       fst (fst (Router.fetch 9090 Router.initial env req))
       = Router.Respond r.
Proof.
  apply (mapped_name_is_proxied 9090 Router.initial
           MoreSamples.env_redirecting
           (Samples.request_to "testapp.localhost:9090") "testapp"
           Samples.testapp_mapping
           (Router.mkState Samples.testapp_mapping Samples.t0)
           [Router.CallBuildMapping] 4000).
  - reflexivity.
  - discriminate.
  - reflexivity.
  - reflexivity.
  - discriminate.
  - reflexivity.
Defined.

(** [ghost] is in the mapping with port 0: 404. *)
Lemma port_zero_is_404_witness :
  let req := Samples.request_to "ghost.localhost:9090" in
  Router.fetch 9090 Router.initial MoreSamples.env_portless req
  = (Router.Respond (Router.not_found "ghost"),
     Router.mkState MoreSamples.portless_mapping Samples.t0,
     [Router.CallGetMapping; Router.CallBuildMapping;
      Router.MappingGet "ghost"])
  /\ Http.status (Router.not_found "ghost") = 404%N
  /\ Router.forwards
       (snd (Router.fetch 9090 Router.initial MoreSamples.env_portless req))
     = false.
Proof.
  apply (port_zero_is_404 9090 Router.initial MoreSamples.env_portless
           (Samples.request_to "ghost.localhost:9090") "ghost"
           MoreSamples.portless_mapping
           (Router.mkState MoreSamples.portless_mapping Samples.t0)
           [Router.CallBuildMapping]).
  - reflexivity.
  - discriminate.
  - reflexivity.
  - reflexivity.
Defined.

(** [Upgrade: WebSocket] for [testapp]: bridged to port 4000. *)
Lemma upgrade_is_bridged_witness :
  let req := MoreSamples.upgrade_request in
  Router.fetch 9090 Router.initial Samples.env0 req
  = (Router.Upgraded
       (Router.mkWsData "ws://localhost:4000/ws?room=1" "testapp"),
     Router.mkState Samples.testapp_mapping Samples.t0,
     [Router.CallGetMapping; Router.CallBuildMapping;
      Router.MappingGet "testapp";
      Router.CallUpgrade "ws://localhost:4000/ws?room=1" "testapp"])
  /\ forall o,
       ~ In (Router.CallFetch o)
           (snd (Router.fetch 9090 Router.initial Samples.env0 req)).
Proof.
  apply (upgrade_is_bridged 9090 Router.initial Samples.env0
           MoreSamples.upgrade_request "testapp"
           Samples.testapp_mapping
           (Router.mkState Samples.testapp_mapping Samples.t0)
           [Router.CallBuildMapping] 4000 "WebSocket").
  - reflexivity.
  - discriminate.
  - reflexivity.
  - reflexivity.
  - discriminate.
  - reflexivity.
  - reflexivity.
Defined.

(** A scan at startup, then calls 5000 and 5001 ms later. *)
Lemma cache_serves_for_ttl_witness :
  let st1 :=
    snd (fst (Router.getMapping Router.initial Samples.t0
                Samples.testapp_mapping)) in
  Router.getMapping st1 (Samples.t0 + 5000) MoreSamples.portless_mapping
  = (Samples.testapp_mapping, st1, [])
  /\ Router.getMapping st1 (Samples.t0 + 5001) MoreSamples.portless_mapping
     = (MoreSamples.portless_mapping,
        Router.mkState MoreSamples.portless_mapping (Samples.t0 + 5001),
        [Router.CallBuildMapping]).
Proof.
  split.
  - apply (cache_serves_for_ttl Router.initial Samples.t0
             (Samples.t0 + 5000) Samples.testapp_mapping
             MoreSamples.portless_mapping); [reflexivity|discriminate].
  - apply (cache_serves_for_ttl Router.initial Samples.t0
             (Samples.t0 + 5001) Samples.testapp_mapping
             MoreSamples.portless_mapping); reflexivity.
Defined.

Lemma dashboard_lists_every_server_witness :
  let page :=
    Http.resp_body
      (Router.renderDashboard 9090 (Router.servers Samples.env0)) in
  Js.occurs_in "http://testapp.localhost:9090" page
  /\ Js.occurs_in "<span>→ :4000</span>" page.
Proof.
  apply (dashboard_lists_every_server 9090 (Router.servers Samples.env0)
           (Router.mkServer "testapp" 4000 4242 "bun run server.ts")).
  left. reflexivity.
Defined.

(** Client 7 closes normally, another client comes, then 7 is heard of
    again; and client 7 closing with code 1005 instead. *)
Lemma closed_client_is_forgotten_witness :
  let handle := Bridge.handle Bridge.standard_close_accepts in
  let st1 := fst (handle Samples.one_client (Bridge.ClientClose 7 1000 "bye")) in
  let st2 :=
    fst (BridgeRun.handle_all Bridge.standard_close_accepts st1
           [Bridge.ClientOpen 8 "ws://localhost:4000/" "testapp";
            Bridge.BackendOpen 1]) in
  (Bridge.wsBackends st2 !! 7%nat = None
   /\ handle st2 (Bridge.ClientMessage 7 (Bridge.Text "late")) = (st2, [])
   /\ handle st2 (Bridge.ClientClose 7 1000 "again") = (st2, []))
  /\ handle Samples.one_client (Bridge.ClientClose 7 1005 EmptyString)
     = (Samples.one_client, []).
Proof.
  split.
  - apply (closed_client_is_forgotten Bridge.standard_close_accepts
             Samples.one_client 7 1000 "bye"
             [Bridge.ClientOpen 8 "ws://localhost:4000/" "testapp";
              Bridge.BackendOpen 1]
             (Bridge.Text "late") 1000 "again").
    + repeat constructor. discriminate.
    + left. reflexivity.
  - apply (closed_client_is_forgotten Bridge.standard_close_accepts
             Samples.one_client 7 1005 EmptyString []
             (Bridge.Text "late") 1000 "again").
    + constructor.
    + reflexivity.
Defined.

Lemma backend_sockets_are_not_shared_witness :
  let st :=
    fst (BridgeRun.handle_all Bridge.standard_close_accepts Bridge.initial
           [Bridge.ClientOpen 7 "ws://localhost:4000/ws" "testapp";
            Bridge.ClientOpen 8 "ws://localhost:4000/ws" "testapp"]) in
  Bridge.wsBackends st !! 8%nat = Some 1%nat
  /\ 8%nat = 8%nat /\ Bridge.listeners st !! 1%nat = Some 8%nat.
Proof.
  split; [reflexivity|].
  apply (backend_sockets_are_not_shared Bridge.standard_close_accepts
           [Bridge.ClientOpen 7 "ws://localhost:4000/ws" "testapp";
            Bridge.ClientOpen 8 "ws://localhost:4000/ws" "testapp"]
           8%nat 8%nat 1%nat); reflexivity.
Defined.

(** [MKCERT_CA_ROOT=/nowhere] while mkcert's own directory holds a CA. *)
Lemma env_root_is_final_witness :
  CaFiles.findCaRoot MoreSamples.plain_join MoreSamples.misconfigured
  = Some "/nowhere"
  /\ forall st : Certs.State (F := Samples.tally_forge),
       CaFiles.loadCA MoreSamples.plain_join (fun _ => None) (fun _ => None)
         MoreSamples.misconfigured st
       = (false, st).
Proof.
  destruct (env_root_is_final (F := Samples.tally_forge)
              MoreSamples.plain_join (fun _ => None) (fun _ => None)
              MoreSamples.misconfigured "/nowhere" eq_refl)
    as [Hroot Hload]; [discriminate|].
  split; [exact Hroot|]. apply Hload. reflexivity.
Defined.

Lemma loadCA_outcome_witness :
  let result :=
    CaFiles.loadCA (F := Samples.tally_forge) MoreSamples.plain_join
      (fun _ => None) (fun _ => None) MoreSamples.misconfigured
      Certs.initial in
  fst result = Certs.isMitmAvailable (snd result)
  /\ forall h tS tN,
       fst (Certs.getCert Samples.tally_pem (snd result) h tS tN) = None.
Proof.
  destruct (loadCA_outcome (F := Samples.tally_forge)
              MoreSamples.plain_join (fun _ => None) (fun _ => None)
              Samples.tally_pem MoreSamples.misconfigured Certs.initial
              eq_refl)
    as (Hagree & _ & Hoff).
  split; [exact Hagree|]. apply Hoff. reflexivity.
Defined.
